(** * DJ availability checker: rule engine, row analysis, TBA cells,
      booking write protocol and three-way reconciliation.

    Shallow embedding of [dj_core.py], [gig_booking_manager.py] and
    [booking_comparator.py].  Python [str] values are modelled as Stdlib
    [string]s of ASCII text; Python [int] as [Z]; a Python [dict] that is
    iterated in insertion order as an association list. *)

From Stdlib Require Import String Ascii ZArith List Bool Lia Sorted.
From Stdlib Require Import DecimalString DecimalZ DecimalPos.
Import ListNotations.
Open Scope list_scope.
Open Scope string_scope.

(* ================================================================== *)
(** ** Python string primitives *)
(* ================================================================== *)

Module Py.
Local Open Scope N_scope.

(** Characters are compared by their code point ([N_of_ascii]). *)

(** [c.isspace()] for ASCII: tab, LF, VT, FF, CR, the four separators
    0x1c-0x1f and the space. *)
Definition is_space (c : ascii) : bool :=
  let n := N_of_ascii c in
  ((9 <=? n) && (n <=? 13)) || ((28 <=? n) && (n <=? 32)).

Definition is_digit (c : ascii) : bool :=
  let n := N_of_ascii c in (48 <=? n) && (n <=? 57).

Definition lower_char (c : ascii) : ascii :=
  let n := N_of_ascii c in
  if (65 <=? n) && (n <=? 90) then ascii_of_N (n + 32) else c.

Definition upper_char (c : ascii) : ascii :=
  let n := N_of_ascii c in
  if (97 <=? n) && (n <=? 122) then ascii_of_N (n - 32) else c.

Local Open Scope string_scope.

Fixpoint smap (f : ascii -> ascii) (s : string) : string :=
  match s with
  | EmptyString => EmptyString
  | String c r => String (f c) (smap f r)
  end.

(** [s.lower()] and [s.upper()]. *)
Definition lower (s : string) : string := smap lower_char s.
Definition upper (s : string) : string := smap upper_char s.

Fixpoint lstrip (s : string) : string :=
  match s with
  | EmptyString => EmptyString
  | String c r => if is_space c then lstrip r else s
  end.

Fixpoint rstrip (s : string) : string :=
  match s with
  | EmptyString => EmptyString
  | String c r =>
      let r' := rstrip r in
      if String.eqb r' "" && is_space c then "" else String c r'
  end.

(** [s.strip()]. *)
Definition strip (s : string) : string := rstrip (lstrip s).

(** [sub in s]. *)
Fixpoint contains (sub s : string) : bool :=
  String.prefix sub s ||
  match s with
  | EmptyString => false
  | String _ r => contains sub r
  end.

(** [s.split(c)] for a one-character separator. *)
Fixpoint split (sep : ascii) (s : string) : list string :=
  match s with
  | EmptyString => [""]
  | String c r =>
      let parts := split sep r in
      if Ascii.eqb c sep then "" :: parts
      else match parts with
           | p :: ps => String c p :: ps
           | [] => [String c ""]
           end
  end.

(** [s.replace(old, new)]: left-to-right, non-overlapping; [old] is
    never empty at the call sites.  The fuel is the length of [s]. *)
Fixpoint replace_fuel (fuel : nat) (old new s : string) : string :=
  match fuel with
  | O => s
  | S f =>
      match s with
      | EmptyString => EmptyString
      | String c r =>
          if String.prefix old s
          then new ++ replace_fuel f old new
                        (substring (String.length old) (String.length s) s)
          else String c (replace_fuel f old new r)
      end
  end.

Definition replace (old new s : string) : string :=
  replace_fuel (String.length s) old new s.

(** [sep.join(xs)]. *)
Definition join (sep : string) (xs : list string) : string :=
  String.concat sep xs.

(** Digits of an [int] literal: single underscores are allowed between
    digits; the underscores are removed. *)
Fixpoint scan_us (after_us : bool) (s : string) : option string :=
  match s with
  | EmptyString => if after_us then None else Some ""
  | String c r =>
      if Ascii.eqb c "_" then (if after_us then None else scan_us true r)
      else option_map (String c) (scan_us false r)
  end.

Definition digits_of (body : string) : option Decimal.uint :=
  match body with
  | EmptyString => None
  | String c _ =>
      if Ascii.eqb c "_" then None
      else match scan_us false body with
           | Some ds => NilZero.uint_of_string ds
           | None => None
           end
  end.

(** [int(s)] in base 10 ([None] is [ValueError]): surrounding
    whitespace, an optional sign, decimal digits with single
    underscores between them. *)
Definition int (s : string) : option Z :=
  match strip s with
  | String c r =>
      if Ascii.eqb c "-" then option_map (fun u => Z.of_int (Decimal.Neg u)) (digits_of r)
      else if Ascii.eqb c "+" then option_map (fun u => Z.of_int (Decimal.Pos u)) (digits_of r)
      else option_map (fun u => Z.of_int (Decimal.Pos u)) (digits_of (String c r))
  | EmptyString => None
  end.

(** [str(n)] / [f"{n}"] for an [int]. *)
Definition str (n : Z) : string := NilZero.string_of_int (Z.to_int n).

(** [dict.get(k, "")] on an insertion-ordered dict. *)
Fixpoint get (k : string) (d : list (string * string)) : string :=
  match d with
  | [] => ""
  | (k', v) :: d' => if String.eqb k k' then v else get k d'
  end.

Fixpoint has_key (k : string) (d : list (string * string)) : bool :=
  match d with
  | [] => false
  | (k', _) :: d' => String.eqb k k' || has_key k d'
  end.

Definition mem (s : string) (xs : list string) : bool :=
  existsb (String.eqb s) xs.

(** Every character of [s] satisfies [p]. *)
Fixpoint sforall (p : ascii -> bool) (s : string) : bool :=
  match s with
  | EmptyString => true
  | String c r => p c && sforall p r
  end.

(** [max(0, n)]. *)
Definition max0 (n : Z) : Z := Z.max 0 n.

End Py.

(** Early return: [o ||> k] returns the result carried by [o], or
    continues with [k]. *)
Definition or_else {A} (o : option A) (k : A) : A :=
  match o with Some a => a | None => k end.
Infix "||>" := or_else (at level 60, right associativity).

(* ================================================================== *)
(** ** dj_core.py *)
(* ================================================================== *)

Module DjCore.
Import Py.

(** A date is represented by its [weekday()] (Monday = 0); [None] is a
    missing [date_obj]. *)
Definition weekend_of (date_obj : option nat) : bool :=
  match date_obj with Some wd => (5 <=? wd)%nat | None => false end.

(** [year == y] for the optional [year] string argument. *)
Definition year_is (year : option string) (y : string) : bool :=
  match year with Some s => String.eqb s y | None => false end.

(** [check_dj_availability(dj_name, value, date_obj, is_bold, year)],
    returning [(can_be_booked, can_be_backup)]. *)
Definition check_dj_availability (dj_name value : string)
    (date_obj : option nat) (is_bold : bool) (year : option string)
    : bool * bool :=
  let value := strip value in
  let value_lower := lower value in
  let is_weekend_day := weekend_of date_obj in
  let blank := String.eqb value "" in
  (if String.eqb dj_name "Henry" && negb is_weekend_day then
     if blank then Some (false, true)
     else if String.eqb value_lower "out" then Some (false, false)
     else None
   else None) ||>
  (if String.eqb dj_name "Stephanie" && year_is year "2026"
   then if blank then Some (false, false) else None
   else None) ||>
  (if String.eqb dj_name "Stephanie" && year_is year "2027"
        && negb is_weekend_day then
     if blank then Some (false, false)
     else if String.eqb value_lower "out" then Some (false, false)
     else None
   else None) ||>
  if String.eqb value_lower "booked" || String.eqb value_lower "backup"
  then (false, false) else
  if String.eqb value_lower "reserved" then (false, false) else
  if String.eqb dj_name "Felipe"
     && (year_is year "2026"
         || year_is year "2027") then
    (if blank then (false, true)
     else if String.eqb value_lower "ok" then (true, true)
     else if String.eqb value_lower "dad" || String.eqb value_lower "ok to backup"
     then (false, true)
     else if String.eqb value_lower "out" || String.eqb value_lower "maxed"
     then (false, false)
     else (false, true))
  else
  if blank then
    (if String.eqb dj_name "Stefano" then (false, false) else (true, true))
  else
  if String.eqb value_lower "out" || String.eqb value_lower "maxed" then
    (if String.eqb dj_name "Woody" && is_weekend_day && negb is_bold
     then (false, true) else (false, false))
  else
  if String.eqb value_lower "ok to backup" then (false, true) else
  if String.eqb value_lower "ok" then (true, true) else
  if String.eqb dj_name "Felipe" && String.eqb value_lower "dad" then (false, true) else
  if String.eqb dj_name "Stefano" && String.eqb value_lower "ok" then (true, true) else
  if String.eqb value_lower "last" then (true, true) else
  (false, false).

(** One clause of a TBA cell, as counted by the first pass of
    [analyze_availability]: ["BOOKED x N"] counts [N] (one when [N] does
    not parse), ["BOOKED"] and ["AAG"] count one. *)
Definition tba_entry_count (entry : string) : Z :=
  let entry_lower := lower entry in
  if contains "booked" entry_lower then
    if contains "x" entry_lower then
      match nth_error (split "x" entry_lower) 1 with
      | Some part => match int (strip part) with
                     | Some multiplier => multiplier
                     | None => 1%Z
                     end
      | None => 1%Z
      end
    else 1%Z
  else if contains "aag" entry_lower then 1%Z
  else 0%Z.

(** State threaded through the two passes of [analyze_availability]. *)
Record counts := mk_counts {
  booked_count : Z;
  backup_count : Z;
  available_for_booking : list string;
  available_for_backup : list string;
  tba_bookings : Z;
  aag_reserved : bool
}.

Definition counts0 : counts := mk_counts 0 0 [] [] 0 false.

Definition add_booked (k : Z) (c : counts) : counts :=
  {| booked_count := booked_count c + k; backup_count := backup_count c;
     available_for_booking := available_for_booking c;
     available_for_backup := available_for_backup c;
     tba_bookings := tba_bookings c; aag_reserved := aag_reserved c |}.

Definition add_tba (k : Z) (c : counts) : counts :=
  {| booked_count := booked_count c + k; backup_count := backup_count c;
     available_for_booking := available_for_booking c;
     available_for_backup := available_for_backup c;
     tba_bookings := tba_bookings c + k; aag_reserved := aag_reserved c |}.

Definition set_aag (c : counts) : counts :=
  {| booked_count := booked_count c; backup_count := backup_count c;
     available_for_booking := available_for_booking c;
     available_for_backup := available_for_backup c;
     tba_bookings := tba_bookings c; aag_reserved := true |}.

Definition add_backup_assigned (c : counts) : counts :=
  {| booked_count := booked_count c; backup_count := backup_count c + 1;
     available_for_booking := available_for_booking c;
     available_for_backup := available_for_backup c;
     tba_bookings := tba_bookings c; aag_reserved := aag_reserved c |}.

(** [available_for_booking.append(name)] / [available_for_backup.append(name)]. *)
Definition add_available (name : string) (can_book can_backup : bool)
    (c : counts) : counts :=
  {| booked_count := booked_count c; backup_count := backup_count c;
     available_for_booking :=
       if can_book then app (available_for_booking c) [name]
       else available_for_booking c;
     available_for_backup :=
       if can_backup then app (available_for_backup c) [name]
       else available_for_backup c;
     tba_bookings := tba_bookings c; aag_reserved := aag_reserved c |}.

(** Body of the first loop of [analyze_availability]. *)
Definition first_pass_step (c : counts) (cell : string * string) : counts :=
  let (name, value) := cell in
  if String.eqb name "Date" then c else
  let value := replace " (BOLD)" "" value in
  let value_lower := lower value in
  if String.eqb name "AAG" && contains "reserved" value_lower then set_aag c else
  if String.eqb name "Stephanie" && contains "reserved" value_lower
  then add_booked 1 c else
  if String.eqb name "TBA"
     && (contains "booked" value_lower || contains "aag" value_lower) then
    let entries := map strip (split "," value) in
    fold_left (fun c e => add_tba (tba_entry_count e) c) entries c
  else
  if String.eqb value_lower "booked" || contains "aag" value_lower
  then add_booked 1 c else c.

(** Body of the second loop of [analyze_availability]. *)
Definition second_pass_step (date_obj : option nat) (year : option string)
    (c : counts) (cell : string * string) : counts :=
  let (name, value) := cell in
  if mem name ["Date"; "TBA"; "AAG"; "Stephanie"] then c else
  let is_bold := contains "(BOLD)" value in
  let value := replace " (BOLD)" "" value in
  let value_lower := lower value in
  if String.eqb value_lower "backup" then add_backup_assigned c
  else if negb (String.eqb value_lower "booked") then
    let (can_book, can_backup) :=
      check_dj_availability name value date_obj is_bold year in
    add_available name can_book can_backup c
  else c.

(** The dictionary returned by [analyze_availability]. *)
Record summary := mk_summary {
  s_booked_count : Z;
  s_available_spots : Z;
  s_available_booking : list string;
  s_available_backup : list string;
  s_tba_bookings : Z;
  s_backup_count : Z;
  s_aag_reserved : bool
}.

(** [analyze_availability(selected_data, date_obj, year)]. *)
Definition analyze_availability (selected_data : list (string * string))
    (date_obj : option nat) (year : option string) : summary :=
  let c1 := fold_left first_pass_step selected_data counts0 in
  let c := fold_left (second_pass_step date_obj year) selected_data c1 in
  let spots := Z.of_nat (length (available_for_booking c)) in
  let spots := if (0 <? tba_bookings c)%Z then max0 (spots - tba_bookings c) else spots in
  let spots := if aag_reserved c then max0 (spots - 1) else spots in
  let spots := if (backup_count c =? 0)%Z
                  && (length (available_for_backup c) =? 0)%nat
               then 0%Z else spots in
  {| s_booked_count := booked_count c;
     s_available_spots := spots;
     s_available_booking := available_for_booking c;
     s_available_backup := available_for_backup c;
     s_tba_bookings := tba_bookings c;
     s_backup_count := backup_count c;
     s_aag_reserved := aag_reserved c |}.

End DjCore.

(* ================================================================== *)
(** ** gig_booking_manager.py, and the dj_core names it imports *)
(* ================================================================== *)

Module Manager.
Import Py.

(** Modelled from the spec: [KNOWN_CELL_VALUES] (imported from dj_core,
    not present in src/).  The closed set of status words of the Cell
    Interpreter (spec 4.1): out, booked, booked x N (N a positive
    integer), backup, maxed, ok to backup, ok, last, reserved, stanford
    and the empty string, together with dad, the Felipe status of the
    rule table (spec 4.2). *)
Definition KNOWN_CELL_WORDS : list string :=
  [""; "out"; "booked"; "backup"; "maxed"; "ok to backup"; "ok"; "last";
   "reserved"; "stanford"; "dad"].

Definition booked_x_n (v : string) : bool :=
  String.prefix "booked x " v &&
  match int (substring 9 (String.length v) v) with
  | Some n => (0 <? n)%Z
  | None => false
  end.

(** [v in KNOWN_CELL_VALUES] for a lower-cased value. *)
Definition known_cell_value (v : string) : bool :=
  mem v KNOWN_CELL_WORDS || booked_x_n v.

(** Modelled from the spec: [parse_tba_value] (imported from dj_core, not
    present in src/).  Spec 4.3 step 1: the TBA cell is a comma-separated
    composite, each clause parsed independently, with the clause rule of
    the Row Analyzer ([DjCore.tba_entry_count]: BOOKED counts one,
    BOOKED x N counts N and one when N does not parse, AAG counts one);
    a blank cell counts nothing. *)
Definition parse_tba_value (value : string) : Z :=
  let value_lower := lower value in
  if contains "booked" value_lower || contains "aag" value_lower then
    fold_left (fun acc e => (acc + DjCore.tba_entry_count e)%Z)
              (map strip (split "," value)) 0%Z
  else 0%Z.

(** Modelled from the spec: [COLUMN_MAPS] (imported from dj_core, not
    present in src/): the Configuration Registry of each year, label to
    1-based column number, taken from dj_core's [COLUMNS_2025],
    [COLUMNS_2026] and [COLUMNS_2027] letter tables. *)
Definition COLUMN_MAPS (year : Z) : option (list (string * nat)) :=
  if (year =? 2025)%Z then
    Some [("Date", 1); ("Henry", 4); ("Woody", 5); ("Paul", 6); ("Stefano", 7);
          ("Felipe", 8); ("TBA", 9); ("Stephanie", 11)]%nat
  else if (year =? 2026)%Z then
    Some [("Date", 1); ("Henry", 4); ("Woody", 5); ("Paul", 6); ("Stefano", 7);
          ("Felipe", 8); ("TBA", 9); ("Stephanie", 11); ("AAG", 12)]%nat
  else if (year =? 2027)%Z then
    Some [("Date", 1); ("Henry", 4); ("Woody", 5); ("Paul", 6); ("Stefano", 7);
          ("Stephanie", 8); ("TBA", 9); ("AAG", 10); ("Felipe", 12)]%nat
  else None.

(** [COLUMN_MAPS.get(year, COLUMN_MAPS[2026])]. *)
Definition column_map_or_2026 (year : Z) : list (string * nat) :=
  match COLUMN_MAPS year with
  | Some m => m
  | None => match COLUMN_MAPS 2026 with Some m => m | None => [] end
  end.

Fixpoint col_lookup (k : string) (m : list (string * nat)) : option nat :=
  match m with
  | [] => None
  | (k', c) :: m' => if String.eqb k k' then Some c else col_lookup k m'
  end.

(** A raw cell in the [Unknown] state of the Cell Interpreter (spec 4.1):
    non-empty once stripped and not a recognized status word. *)
Definition is_unknown_status (raw : string) : bool :=
  let v := strip raw in
  negb (String.eqb v "") && negb (known_cell_value (lower v)).

(** The well-formed DJ booking cells of the write protocol: blank,
    ["BOOKED"] and ["BOOKED x N"] with [N] a positive integer written in
    decimal. *)
Inductive booked_cell : string -> Prop :=
| bc_blank x : strip x = "" -> booked_cell x
| bc_booked : booked_cell "BOOKED"
| bc_multiple n : (1 <= n)%Z -> booked_cell ("BOOKED x " ++ str n).

(** The well-formed TBA cells: a booked cell, optionally followed by an
    AAG clause (a blank booked part with AAG is ["AAG"]). *)
Inductive tba_cell : string -> Prop :=
| tc_booked x : booked_cell x -> tba_cell x
| tc_aag : tba_cell "AAG"
| tc_booked_aag : tba_cell "BOOKED, AAG"
| tc_multiple_aag n : (1 <= n)%Z -> tba_cell ("BOOKED x " ++ str n ++ ", AAG").

(** [increment_tba(current_value)]. *)
Definition increment_tba (current_value : string) : string :=
  if String.eqb (strip current_value) "" then "BOOKED" else
  let parts := map strip (split "," current_value) in
  let aag_parts := filter (fun p => String.eqb (upper p) "AAG") parts in
  let booked_parts := filter (fun p => negb (String.eqb (upper p) "AAG")) parts in
  match booked_parts with
  | [] => "BOOKED, " ++ join ", " aag_parts
  | _ =>
    let new_booked :=
      match booked_parts with
      | [b] =>
          let bp := upper b in
          if String.eqb bp "BOOKED" then "BOOKED x 2"
          else if String.prefix "BOOKED X " bp then
            match int (replace "BOOKED X " "" bp) with
            | Some n => "BOOKED x " ++ str (n + 1)
            | None => "BOOKED x 2"
            end
          else "BOOKED x 2"
      | b :: _ => b
      | [] => ""
      end in
    match aag_parts with
    | [] => new_booked
    | _ => new_booked ++ ", " ++ join ", " aag_parts
    end
  end.

(** [count_booked_events(cell_value)]. *)
Definition count_booked_events (cell_value : string) : Z :=
  if String.eqb (strip cell_value) "" then 0%Z else
  let value_upper := strip (upper cell_value) in
  if String.eqb value_upper "BOOKED" then 1%Z
  else if String.prefix "BOOKED X " value_upper then
    match int (replace "BOOKED X " "" value_upper) with
    | Some n => n
    | None => 0%Z
    end
  else 0%Z.

(** [increment_booked(current_value)]. *)
Definition increment_booked (current_value : string) : string :=
  if String.eqb (strip current_value) "" then "BOOKED" else
  let value_upper := strip (upper current_value) in
  if String.eqb value_upper "BOOKED" then "BOOKED x 2"
  else if String.prefix "BOOKED X " value_upper then
    match int (replace "BOOKED X " "" value_upper) with
    | Some n => "BOOKED x " ++ str (n + 1)
    | None => "BOOKED x 2"
    end
  else current_value.

(** [is_weekend(date_obj)] on the weekday of the date. *)
Definition is_weekend (weekday : nat) : bool := (5 <=? weekday)%nat.

(** [can_backup(dj_name, cell_value, is_bold, date_obj, year)], returning
    [(can_backup, note)]; the date is given by its weekday. *)
Definition can_backup (dj_name cell_value : string) (is_bold : bool)
    (weekday : nat) (year : Z) : bool * option string :=
  let value := upper (strip cell_value) in
  let weekend := is_weekend weekday in
  if negb (String.eqb value "") && negb (known_cell_value (lower value))
  then (false, None) else
  if mem value ["BOOKED"; "BACKUP"; "MAXED"; "RESERVED"] then (false, None) else
  if mem value ["STANFORD"; "LAST"] then (true, None) else
  if String.eqb dj_name "Henry" then
    (if String.eqb value "OUT" then (false, None) else (true, None))
  else if String.eqb dj_name "Woody" then
    (if String.eqb value "OUT" then
       (if weekend && negb is_bold then (true, None) else (false, None))
     else (true, None))
  else if String.eqb dj_name "Paul" then
    (if String.eqb value "OUT" then (false, None) else (true, None))
  else if String.eqb dj_name "Stefano" then
    (if String.eqb value "OUT" then (false, None)
     else if String.eqb value "" then (true, Some "check with Stefano")
     else (false, None))
  else if String.eqb dj_name "Felipe" then
    (if (2026 <=? year)%Z then
       (if mem value [""; "OK"; "DAD"; "OK TO BACKUP"] then (true, None)
        else (false, None))
     else if String.eqb value "OUT" then (false, None) else (true, None))
  else if String.eqb dj_name "Stephanie" then
    (if (year =? 2026)%Z then (false, None)
     else if (2027 <=? year)%Z then
       (if mem value ["OUT"; "RESERVED"] then (false, None)
        else if weekend && String.eqb value "" then (true, None)
        else (false, None))
     else (false, None))
  else (false, None).

(** [(row_data.get(k, "") or "").strip().upper()]. *)
Definition cell_norm (k : string) (row_data : list (string * string)) : string :=
  upper (strip (get k row_data)).

(** [calculate_spots_remaining(row_data, year, date_obj)]; the optional
    date is given by its weekday. *)
Definition calculate_spots_remaining (row_data : list (string * string))
    (year : Z) (date_obj : option nat) : Z :=
  let col_map := column_map_or_2026 year in
  let available_djs :=
    fold_left (fun acc dj => if String.eqb (cell_norm dj row_data) ""
                             then (acc + 1)%Z else acc)
              ["Henry"; "Woody"; "Paul"] 0%Z in
  let available_djs :=
    if (2026 <=? year)%Z then
      (if String.eqb (cell_norm "Felipe" row_data) "OK"
       then (available_djs + 1)%Z else available_djs)
    else
      (if String.eqb (cell_norm "Felipe" row_data) ""
       then (available_djs + 1)%Z else available_djs) in
  let available_djs :=
    if (2027 <=? year)%Z && has_key "Stephanie" row_data then
      (if String.eqb (cell_norm "Stephanie" row_data) "" && DjCore.weekend_of date_obj
       then (available_djs + 1)%Z else available_djs)
    else available_djs in
  let tba_count := parse_tba_value (get "TBA" row_data) in
  let available_djs := (available_djs - tba_count)%Z in
  let available_djs :=
    if match col_lookup "AAG" col_map with Some _ => true | None => false end
       && has_key "AAG" row_data then
      (if String.eqb (cell_norm "AAG" row_data) "RESERVED"
       then (available_djs - 1)%Z else available_djs)
    else available_djs in
  max0 available_djs.

(** [check_existing_backup(row_data)]. *)
Definition check_existing_backup (row_data : list (string * string)) : option string :=
  find (fun dj => String.eqb (cell_norm dj row_data) "BACKUP")
       ["Henry"; "Woody"; "Paul"; "Stefano"; "Felipe"; "Stephanie"].

End Manager.

(* ================================================================== *)
(** ** GigBookingManager.run: the booking write protocol *)
(* ================================================================== *)

Module Protocol.
Import Py Manager.

(** Store-changing actions of the protocol, in the order performed:
    the matrix ([insert_row], [update_cell] with a value or with one of
    the row formula templates) and the calendar (event creation). *)
Inductive effect :=
| InsertRow (row : nat)
| WriteCell (row col : nat) (value : string)
| WriteFormula (row col : nat) (template_col : string)
| CreateTimedEvent (title : string)
| CreateAllDayEvent (dj : string).

(** Modelled from the spec: [get_dj_initials] (imported from dj_core,
    not present in src/): the initials of each DJ identity (spec 3), as
    the repository's tests list them. *)
Definition get_dj_initials (dj : string) : string :=
  if String.eqb dj "Henry" then "HK"
  else if String.eqb dj "Woody" then "WM"
  else if String.eqb dj "Paul" then "PB"
  else if String.eqb dj "Stefano" then "SB"
  else if String.eqb dj "Felipe" then "FS"
  else if String.eqb dj "Stephanie" then "SD"
  else "UP".

(** Modelled from the spec: [BACKUP_ELIGIBLE_DJS] (imported from dj_core,
    not present in src/): the DJ identities of the year's configuration,
    in column-map order. *)
Definition BACKUP_ELIGIBLE_DJS (year : Z) : list string :=
  filter (fun dj => negb (mem dj ["Date"; "TBA"; "AAG"]))
         (map fst (column_map_or_2026 year)).

(** The normalized booking produced by [parse_booking_data]. *)
Record booking := mk_booking {
  b_dj_short_name : string;
  b_is_unassigned : bool;
  b_year : Z;
  b_weekday : nat;               (** [booking["date"].weekday()] *)
  b_sheet_date : string;         (** [date_to_sheet_format(booking["date"])] *)
  b_dj_initials_bracket : string;  (** [booking["dj_initials_bracket"]] *)
  b_client_display : string;
  b_has_planner : bool;
  b_has_times : bool             (** [calculate_event_times] gave both times *)
}.

(** What the external adapters and the operator answer during one run. *)
Record env := mk_env {
  e_find_date_row : option nat;                 (** [find_date_row] *)
  e_insert_point : nat;                         (** row chosen by [create_date_row] *)
  e_row_data : nat -> list (string * string);   (** [get_row_data(row_num)] *)
  e_calendar : string -> list string;           (** [check_calendar_conflicts(date, bracket)] *)
  e_is_bold : nat -> bool;                      (** [is_cell_bold] for a column *)
  e_approve_multiple : bool;                    (** [show_multiple_booking_dialog] *)
  e_backup_dialog : Z -> list (string * option string) -> option string -> option nat
    (** [show_backup_dialog]: index of the chosen candidate *)
}.

(** The run's monad: effects accumulated so far, and either a value to
    continue with or the early [return] value of [run]. *)
Definition M (A : Type) : Type := list effect -> (A + bool) * list effect.

Definition ret {A} (a : A) : M A := fun eff => (inl a, eff).
Definition bind {A B} (m : M A) (k : A -> M B) : M B :=
  fun eff => match m eff with
             | (inl a, eff') => k a eff'
             | (inr r, eff') => (inr r, eff')
             end.
Definition emit (e : effect) : M unit := fun eff => (inl tt, app eff [e]).
Definition exit {A} (r : bool) : M A := fun eff => (inr r, eff).
Definition when (c : bool) (m : M unit) : M unit := if c then m else ret tt.

Notation "x <-- m ;; k" := (bind m (fun x => k))
  (at level 61, m at next level, right associativity).
Notation "m ;;; k" := (bind m (fun _ => k)) (at level 61, right associativity).

(** [ROW_FORMULA_TEMPLATES], columns B, C, E, G, H. *)
Definition ROW_FORMULA_COLUMNS : list (string * nat) :=
  [("B", 2); ("C", 3); ("E", 5); ("G", 7); ("H", 8)]%nat.

(** [SheetsClient.create_date_row]: insert a row, write the date to
    column A and the formula templates. *)
Definition create_date_row (insert_row : nat) (b : booking) : M nat :=
  emit (InsertRow insert_row) ;;;
  emit (WriteCell insert_row 1 (b_sheet_date b)) ;;;
  fold_left (fun m '(letter, col) => m ;;; emit (WriteFormula insert_row col letter))
            ROW_FORMULA_COLUMNS (ret tt) ;;;
  ret insert_row.

(** [row_data[k] = v] on an insertion-ordered dict. *)
Fixpoint set_key (k v : string) (d : list (string * string)) : list (string * string) :=
  match d with
  | [] => [(k, v)]
  | (k', v') :: d' => if String.eqb k k' then (k, v) :: d' else (k', v') :: set_key k v d'
  end.

(** Backup candidates: [can_backup] over [BACKUP_ELIGIBLE_DJS], skipping
    the booked DJ and DJs without a column. *)
Definition backup_candidates (en : env) (dry_run : bool) (b : booking)
    (col_map : list (string * nat)) (row_data : list (string * string))
    : list (string * option string) :=
  fold_left
    (fun acc dj =>
       if String.eqb dj (b_dj_short_name b) then acc else
       match col_lookup dj col_map with
       | None => acc
       | Some col =>
           let cell_val := get dj row_data in
           let bold := if String.eqb dj "Woody" && String.eqb (upper (strip cell_val)) "OUT"
                          && negb dry_run then e_is_bold en col else false in
           let (eligible, note) := can_backup dj cell_val bold (b_weekday b) (b_year b) in
           if eligible then app acc [(dj, note)] else acc
       end)
    (BACKUP_ELIGIBLE_DJS (b_year b)) [].

(** [GigBookingManager.run], from the column-map lookup on. *)
Definition run_m (en : env) (dry_run : bool) (b : booking) : M bool :=
  match COLUMN_MAPS (b_year b) with
  | None => exit false
  | Some col_map =>
  (* Step 3: find date row, creating it when missing *)
  row_num <-- (match e_find_date_row en with
               | Some r => ret r
               | None => if dry_run then ret 999%nat
                         else create_date_row (e_insert_point en) b
               end) ;;
  (* Step 4: read row data *)
  let row_data := if dry_run && Nat.eqb row_num 999 then [] else e_row_data en row_num in
  let dj_short := b_dj_short_name b in
  (* Phase 1: validate matrix and calendar *)
  allow_multiple <--
    (if b_is_unassigned b then ret false else
     match col_lookup dj_short col_map with
     | None => exit false
     | Some _ =>
         let cell_value := get dj_short row_data in
         let matrix_count := count_booked_events cell_value in
         let cal_conflicts := e_calendar en (b_dj_initials_bracket b) in
         let calendar_count := Z.of_nat (length cal_conflicts) in
         if negb (matrix_count =? calendar_count)%Z then exit false
         else if (0 <? matrix_count)%Z then
           (if dry_run then ret true
            else if e_approve_multiple en then ret true
            else exit false)
         else ret false
     end) ;;
  (* Phase 2: matrix writes *)
  row_data <--
    (if negb (b_is_unassigned b) then
       match col_lookup dj_short col_map with
       | None => exit false
       | Some col_num =>
           let new_value :=
             if allow_multiple then increment_booked (get dj_short row_data)
             else "BOOKED" in
           when (negb dry_run) (emit (WriteCell row_num col_num new_value)) ;;;
           ret (set_key dj_short new_value row_data)
       end
     else
       match col_lookup "TBA" col_map with
       | None => exit false
       | Some tba_col =>
           let new_tba := increment_tba (get "TBA" row_data) in
           when (negb dry_run) (emit (WriteCell row_num tba_col new_tba)) ;;;
           ret (set_key "TBA" new_tba row_data)
       end) ;;
  (* Phase 2: backup assessment *)
  backup_dj <--
    (if b_is_unassigned b then ret None else
     let spots := calculate_spots_remaining row_data (b_year b) (Some (b_weekday b)) in
     let existing_backup := check_existing_backup row_data in
     let candidates := backup_candidates en dry_run b col_map row_data in
     let chosen :=
       if dry_run then None
       else match e_backup_dialog en spots candidates existing_backup with
            | Some i => option_map fst (nth_error candidates i)
            | None => None
            end in
     match chosen with
     | None => ret None
     | Some bdj =>
         match e_calendar en ("[" ++ get_dj_initials bdj ++ "]") with
         | _ :: _ => ret None
         | [] =>
             match col_lookup bdj col_map with
             | None => exit false
             | Some backup_col =>
                 when (negb dry_run) (emit (WriteCell row_num backup_col "BACKUP")) ;;;
                 ret (Some bdj)
             end
         end
     end) ;;
  (* Phase 3: calendar events *)
  let title := b_dj_initials_bracket b ++ " " ++ b_client_display b
               ++ (if b_has_planner b then " (planner)" else "") in
  when (b_has_times b && negb dry_run) (emit (CreateTimedEvent title)) ;;;
  match backup_dj with
  | Some bdj => when (negb dry_run) (emit (CreateAllDayEvent bdj))
  | None => ret tt
  end ;;;
  ret true
  end.

(** The value [run] returns and the store actions it performed. *)
Definition run (en : env) (dry_run : bool) (b : booking) : bool * list effect :=
  match run_m en dry_run b [] with
  | (inl r, eff) => (r, eff)
  | (inr r, eff) => (r, eff)
  end.

End Protocol.

(* ================================================================== *)
(** ** gig_booking_manager.py: the SheetsClient reads and the calendar query *)
(* ================================================================== *)

Module Sheets.
Import Py Manager Protocol.

(** [SheetsClient.find_date_row]: [date_values] is column A
    ([sheet.col_values(1)]) and [target] is
    [date_to_sheet_format(date_obj)]; the loop starts at index [i]. *)
Fixpoint find_from (i : nat) (date_values : list string) (target : string) : option nat :=
  match date_values with
  | [] => None
  | val :: rest =>
      if String.eqb (strip val) target then Some (i + 1)%nat
      else find_from (S i) rest target
  end.

Definition find_date_row (date_values : list string) (target : string) : option nat :=
  find_from 0 date_values target.

(** [lst[i]] on a Python list; [None] is [IndexError]. *)
Definition py_index (l : list string) (i : Z) : option string :=
  let n := Z.of_nat (length l) in
  if (0 <=? i)%Z then nth_error l (Z.to_nat i)
  else if (- n <=? i)%Z then nth_error l (Z.to_nat (n + i))
  else None.

(** [max(col_map.values())]; [None] is the [ValueError] of an empty map. *)
Definition max_values (col_map : list (string * nat)) : option nat :=
  match col_map with
  | [] => None
  | (_, c) :: m => Some (fold_left Nat.max (map snd m) c)
  end.

(** [while len(row_values) < max_col: row_values.append("")]. *)
Definition pad (max_col : nat) (row_values : list string) : list string :=
  app row_values (repeat "" (max_col - length row_values)).

(** One iteration of [for name, col_idx in col_map.items()]; [None] is
    a raised [IndexError]. *)
Definition row_data_step (row_values : list string) (acc : option (list (string * string)))
    (entry : string * nat) : option (list (string * string)) :=
  let '(name, col_idx) := entry in
  match acc with
  | None => None
  | Some data =>
      if String.eqb name "Date" then Some data else
      match py_index row_values (Z.of_nat col_idx - 1) with
      | Some v => Some (set_key name v data)
      | None => None
      end
  end.

(** [SheetsClient.get_row_data] once [row_values = sheet.row_values(row_num)]
    is read, for the column map [col_map]; [None] is a raised error. *)
Definition get_row_data_of (col_map : list (string * nat)) (row_values : list string)
    : option (list (string * string)) :=
  match max_values col_map with
  | None => None
  | Some max_col => fold_left (row_data_step (pad max_col row_values)) col_map (Some [])
  end.

(** [get_row_data(row_num, year)], with
    [COLUMN_MAPS.get(year, COLUMN_MAPS[2026])]. *)
Definition get_row_data (row_values : list string) (year : Z)
    : option (list (string * string)) :=
  get_row_data_of (column_map_or_2026 year) row_values.

(** The dictionary of [get_row_data] for a column map whose labels are
    distinct and whose columns are positive: each label other than Date
    with the [row_values] entry at its column, blank past the end. *)
Definition row_dict (cm : list (string * nat)) (rv : list string) : list (string * string) :=
  map (fun p => (fst p, nth (snd p - 1) rv ""))
      (filter (fun p => negb (String.eqb (fst p) "Date")) cm).

(** [s.split()]: the words between runs of whitespace; [cur] is the
    word being read. *)
Fixpoint split_ws_acc (cur : string) (s : string) : list string :=
  match s with
  | EmptyString => if String.eqb cur "" then [] else [cur]
  | String c r =>
      if is_space c then
        (if String.eqb cur "" then split_ws_acc "" r else cur :: split_ws_acc "" r)
      else split_ws_acc (cur ++ String c "") r
  end.

Definition split_ws (s : string) : list string := split_ws_acc "" s.

Fixpoint digit_count (s : string) : nat :=
  match s with
  | EmptyString => 0
  | String c r => (if is_digit c then 1 else 0) + digit_count r
  end.

(** [int(s)] with the default limit of 4300 digits on a decimal string
    (Python 3.11 and later): a longer literal raises [ValueError]. *)
Definition int_limited (s : string) : option Z :=
  if (4300 <? digit_count s)%nat then None else int s.

(** A [datetime] argument is converted to a C [int]: outside this range
    [datetime(...)] raises [OverflowError]. *)
Definition in_c_int (n : Z) : bool := (-2147483648 <=? n)%Z && (n <=? 2147483647)%Z.

Definition is_leap (y : Z) : bool :=
  (Z.modulo y 4 =? 0)%Z && (negb (Z.modulo y 100 =? 0)%Z || (Z.modulo y 400 =? 0)%Z).

Definition days_in_month (y m : Z) : Z :=
  if (m =? 2)%Z then (if is_leap y then 29 else 28)
  else if existsb (Z.eqb m) [4; 6; 9; 11]%Z then 30 else 31.

(** [datetime(year, month, day)] does not raise [ValueError]. *)
Definition valid_date (y m d : Z) : bool :=
  (1 <=? y)%Z && (y <=? 9999)%Z && (1 <=? m)%Z && (m <=? 12)%Z
  && (1 <=? d)%Z && (d <=? days_in_month y m)%Z.

(** One iteration of the insertion-point loop of
    [SheetsClient.create_date_row] on a column-A value. *)
Inductive entry_result :=
| Skip                       (** blank, no second word, or [ValueError]: [continue] *)
| Parsed (d : Z * Z * Z)     (** [existing_date], as (year, month, day) *)
| Raise.                     (** [OverflowError], not caught *)

Definition parse_entry (year : Z) (existing_date_str : string) : entry_result :=
  if String.eqb (strip existing_date_str) "" then Skip else
  match split_ws existing_date_str with
  | _ :: month_day :: _ =>
      match split "/" month_day with
      | [m; d] =>
          match int_limited m, int_limited d with
          | Some month, Some day =>
              if in_c_int year && in_c_int month && in_c_int day then
                (if valid_date year month day then Parsed (year, month, day) else Skip)
              else Raise
          | _, _ => Skip
          end
      | _ => Skip
      end
  | _ => Skip
  end.

(** [existing_date > date_obj] for dates at midnight. *)
Definition date_gtb (a b : Z * Z * Z) : bool :=
  let '(y1, m1, d1) := a in
  let '(y2, m2, d2) := b in
  (y2 <? y1)%Z || ((y1 =? y2)%Z && ((m2 <? m1)%Z || ((m1 =? m2)%Z && (d2 <? d1)%Z))).

(** The loop from index [i]: [None] is a raised error, [Some None] no
    [break], [Some (Some r)] a [break] with [insert_row = r]. *)
Fixpoint scan_insert (i : nat) (date_values : list string) (year : Z) (date_obj : Z * Z * Z)
    : option (option nat) :=
  match date_values with
  | [] => Some None
  | s :: rest =>
      match parse_entry year s with
      | Raise => None
      | Parsed d =>
          if date_gtb d date_obj then Some (Some (i + 1)%nat)
          else scan_insert (S i) rest year date_obj
      | Skip => scan_insert (S i) rest year date_obj
      end
  end.

(** The row [create_date_row(date_obj, year)] inserts at, for column A
    [date_values]; [None] is the uncaught [OverflowError]. *)
Definition insertion_row (date_values : list string) (year : Z) (date_obj : Z * Z * Z)
    : option nat :=
  match scan_insert 0 date_values year date_obj with
  | None => None
  | Some None => Some (length date_values + 1)%nat
  | Some (Some r) => Some r
  end.

(** [check_calendar_conflicts(date_obj, initials_bracket)] on the
    standard output of the icalBuddy query; [None] is a missing
    icalBuddy or a timeout. *)
Definition check_calendar_conflicts (stdout : option string) (initials_bracket : string)
    : list string :=
  match stdout with
  | None => []
  | Some out =>
      filter (fun line => negb (String.eqb line "") && contains initials_bracket line)
             (map strip (split "010" (strip out)))
  end.

End Sheets.

(* ================================================================== *)
(** ** booking_comparator.py: compare_systems *)
(* ================================================================== *)

Module Comparator.
Import Py.

(** A source snapshot: date key ["M/D"] to the DJs booked that day. *)
Definition source := list (string * list string).

(** [d.get(date_key, [])]. *)
Fixpoint djs_on (k : string) (d : source) : list string :=
  match d with
  | [] => []
  | (k', v) :: d' => if String.eqb k k' then v else djs_on k d'
  end.

(** [set(a) == set(b)] (the code compares the sorted sets). *)
Definition set_eqb (a b : list string) : bool :=
  forallb (fun x => mem x b) a && forallb (fun x => mem x a) b.

(** [set(a) - set(b)] is non-empty. *)
Definition diff_nonempty (a b : list string) : bool :=
  existsb (fun x => negb (mem x b)) a.

Definition is_empty {A} (l : list A) : bool :=
  match l with [] => true | _ => false end.

(** [date_sort_key]: [(int(month), int(day))]. *)
Definition date_sort_key (d : string) : Z * Z :=
  match split "/" d with
  | m :: dd :: _ => (match int m with Some x => x | None => 0%Z end,
                     match int dd with Some x => x | None => 0%Z end)
  | _ => (0%Z, 0%Z)
  end.

Definition key_leb (a b : Z * Z) : bool :=
  (fst a <? fst b)%Z || ((fst a =? fst b)%Z && (snd a <=? snd b)%Z).

Fixpoint insert_sorted (d : string) (l : list string) : list string :=
  match l with
  | [] => [d]
  | x :: l' => if key_leb (date_sort_key d) (date_sort_key x)
               then d :: l else x :: insert_sorted d l'
  end.

(** [sorted(all_date_keys, key=date_sort_key)] over the union of keys. *)
Definition all_dates (gig_db avail_matrix : source) (master_cal : option source)
    : list string :=
  let keys := (map fst gig_db ++ map fst avail_matrix
               ++ match master_cal with Some c => map fst c | None => [] end)%list in
  let uniq := fold_left (fun acc k => if mem k acc then acc else app acc [k]) keys [] in
  fold_right insert_sorted [] uniq.

Record issue := mk_issue {
  i_date : string;
  i_gig_db : list string;
  i_avail_matrix : list string;
  i_master_cal : option (list string)
}.

(** The report sections of [compare_systems]. *)
Inductive category :=
| MissingFromMatrix | MissingFromGigDb | MissingFromCalendar | DjMismatch.

(** The discrepancy list: every date whose present sources differ. *)
Definition issues (gig_db avail_matrix : source) (master_cal : option source)
    : list issue :=
  flat_map
    (fun date_key =>
       let gig_djs := djs_on date_key gig_db in
       let matrix_djs := djs_on date_key avail_matrix in
       let cal_djs := option_map (djs_on date_key) master_cal in
       let all_match :=
         match cal_djs with
         | Some c => set_eqb gig_djs matrix_djs && set_eqb matrix_djs c
         | None => set_eqb gig_djs matrix_djs
         end in
       if all_match then [] else [mk_issue date_key gig_djs matrix_djs cal_djs])
    (all_dates gig_db avail_matrix master_cal).

(** The four lists of the categorization loop. *)
Record buckets := mk_buckets {
  missing_from_matrix : list issue;
  missing_from_gig_db : list issue;
  missing_from_calendar : list issue;
  dj_mismatches : list issue
}.

Definition categorize_step (has_calendar : bool) (bk : buckets) (i : issue) : buckets :=
  let gig_set := i_gig_db i in
  let matrix_set := i_avail_matrix i in
  let cal_set := match i_master_cal i with Some c => c | None => [] end in
  let in_gig_not_matrix := diff_nonempty gig_set matrix_set in
  let in_matrix_not_gig := diff_nonempty matrix_set gig_set in
  let bk :=
    if in_gig_not_matrix && negb in_matrix_not_gig && is_empty matrix_set then
      mk_buckets (app (missing_from_matrix bk) [i]) (missing_from_gig_db bk)
                 (missing_from_calendar bk) (dj_mismatches bk)
    else if in_matrix_not_gig && negb in_gig_not_matrix && is_empty gig_set then
      mk_buckets (missing_from_matrix bk) (app (missing_from_gig_db bk) [i])
                 (missing_from_calendar bk) (dj_mismatches bk)
    else
      mk_buckets (missing_from_matrix bk) (missing_from_gig_db bk)
                 (missing_from_calendar bk) (app (dj_mismatches bk) [i]) in
  if has_calendar && diff_nonempty gig_set cal_set && is_empty cal_set then
    mk_buckets (missing_from_matrix bk) (missing_from_gig_db bk)
               (app (missing_from_calendar bk) [i]) (dj_mismatches bk)
  else bk.

(** The dated lines of the booking part of the report of
    [compare_systems(gig_db, avail_matrix, master_cal)], section by
    section in printed order (the statistics header and the backup
    comparison are not modelled). *)
Definition compare_systems (gig_db avail_matrix : source) (master_cal : option source)
    : list (category * string) :=
  let has_calendar := match master_cal with Some _ => true | None => false end in
  let iss := issues gig_db avail_matrix master_cal in
  let bk := fold_left (categorize_step has_calendar) iss (mk_buckets [] [] [] []) in
  let already_reported := map i_date (dj_mismatches bk) in
  let cal_only := filter (fun i => negb (mem (i_date i) already_reported))
                         (missing_from_calendar bk) in
  (map (fun i => (MissingFromMatrix, i_date i)) (missing_from_matrix bk)
   ++ map (fun i => (MissingFromGigDb, i_date i)) (missing_from_gig_db bk)
   ++ (if has_calendar then map (fun i => (MissingFromCalendar, i_date i)) cal_only else [])
   ++ map (fun i => (DjMismatch, i_date i)) (dj_mismatches bk))%list.


(** The order [sorted(..., key=date_sort_key)] puts keys in. *)
Definition key_le (a b : string) : Prop := key_leb (date_sort_key a) (date_sort_key b) = true.

End Comparator.

(* ================================================================== *)
(** ** Rows, cell values and runs used by the statements below *)
(* ================================================================== *)

Module Fixtures.
Import Py DjCore Manager Protocol.

(** Every cell of the row other than the date is blank. *)
Definition blank_row (row : list (string * string)) : Prop :=
  forall kv, In kv row -> fst kv = "Date" \/ snd kv = "".

(** A 2026 row of the matrix, columns in sheet order. *)
Definition row2026 (h w p st f t sd a : string) : list (string * string) :=
  [("Date", "Sat"); ("Henry", h); ("Woody", w); ("Paul", p); ("Stefano", st);
   ("Felipe", f); ("TBA", t); ("Stephanie", sd); ("AAG", a)].

(** Whether the second loop of [analyze_availability] appends the cell's
    DJ to [available_for_booking]. *)
Definition second_pass_books (date_obj : option nat) (year : option string)
    (cell : string * string) : bool :=
  let (name, value) := cell in
  if mem name ["Date"; "TBA"; "AAG"; "Stephanie"] then false else
  let is_bold := contains "(BOLD)" value in
  let value := replace " (BOLD)" "" value in
  let value_lower := lower value in
  if String.eqb value_lower "backup" then false
  else if negb (String.eqb value_lower "booked") then
    fst (check_dj_availability name value date_obj is_bold year)
  else false.

(** What the first loop of [analyze_availability] adds to
    [tba_bookings] for the cell. *)
Definition first_pass_tba (cell : string * string) : Z :=
  let (name, value) := cell in
  if String.eqb name "Date" then 0%Z else
  let value := replace " (BOLD)" "" value in
  let value_lower := lower value in
  if String.eqb name "AAG" && contains "reserved" value_lower then 0%Z else
  if String.eqb name "Stephanie" && contains "reserved" value_lower then 0%Z else
  if String.eqb name "TBA"
     && (contains "booked" value_lower || contains "aag" value_lower) then
    fold_left (fun acc e => (acc + tba_entry_count e)%Z) (map strip (split "," value)) 0%Z
  else 0%Z.

(** Whether the first loop of [analyze_availability] sets [aag_reserved]
    on the cell. *)
Definition first_pass_aag (cell : string * string) : bool :=
  let (name, value) := cell in
  String.eqb name "AAG" && contains "reserved" (lower (replace " (BOLD)" "" value)).


(** The number of cells [f] accepts. *)
Definition count_cells (f : string * string -> bool) (row : list (string * string)) : Z :=
  fold_right (fun kv acc => ((if f kv then 1 else 0) + acc)%Z) 0%Z row.

(** The store actions of [create_date_row] at row [r]. *)
Definition row_creation_effects (r : nat) (b : booking) : list effect :=
  [InsertRow r; WriteCell r 1 (b_sheet_date b);
   WriteFormula r 2 "B"; WriteFormula r 3 "C"; WriteFormula r 5 "E";
   WriteFormula r 7 "G"; WriteFormula r 8 "H"]%nat.

(** A 2026 Saturday booking for Paul, with event times. *)
Definition sample_booking : booking :=
  mk_booking "Paul" false 2026 5 "Sat 11/21" "[PB]" "Client" false true.

(** Paul already has one calendar event that day; the matrix row is
    [found] (or missing) and its cells are blank. *)
Definition sample_env (found : option nat) : env :=
  mk_env found 230 (fun _ => [])
         (fun br => if String.eqb br "[PB]" then ["[PB] Other client"] else [])
         (fun _ => false) true (fun _ _ _ => None).

(** The title of the primary calendar event of booking [b]. *)
Definition event_title (b : booking) : string :=
  b_dj_initials_bracket b ++ " " ++ b_client_display b
  ++ (if b_has_planner b then " (planner)" else "").

(** The row a non-dry run works on: the row found, or the one it creates. *)
Definition date_row (en : env) : nat :=
  match e_find_date_row en with Some r => r | None => e_insert_point en end.

(** The store actions of a non-dry run before its first cell write. *)
Definition creation_effects (en : env) (b : booking) : list effect :=
  match e_find_date_row en with
  | Some _ => []
  | None => row_creation_effects (e_insert_point en) b
  end.

(** Row 7 is found blank, no calendar event exists, and the operator
    picks the first backup candidate. *)
Definition backup_env : env :=
  mk_env (Some 7%nat) 230 (fun _ => []) (fun _ => []) (fun _ => false) true
         (fun _ _ _ => Some 0%nat).

(** Paul is booked once in row 7 and in the calendar; the operator
    declines a second booking. *)
Definition declining_env : env :=
  mk_env (Some 7%nat) 230 (fun _ => [("Paul", "BOOKED")])
         (fun br => if String.eqb br "[PB]" then ["[PB] Other client"] else [])
         (fun _ => false) false (fun _ _ _ => None).

(** An unassigned 2026 booking with event times. *)
Definition unassigned_booking : booking :=
  mk_booking "" true 2026 5 "Sat 11/21" "" "Client" false true.

End Fixtures.

(* ================================================================== *)
(** * Facts about the string primitives *)
(* ================================================================== *)

Module StringFacts.
Import Py.

Lemma upper_lower_char (c : ascii) : upper_char (lower_char c) = upper_char c.
Proof. destruct c as [[] [] [] [] [] [] [] []]; reflexivity. Qed.

Lemma lower_upper_char (c : ascii) : lower_char (upper_char c) = lower_char c.
Proof. destruct c as [[] [] [] [] [] [] [] []]; reflexivity. Qed.

Lemma upper_lower (s : string) : upper (lower s) = upper s.
Proof.
  induction s as [|c r IH]; [reflexivity|].
  unfold upper, lower in *; simpl; rewrite upper_lower_char, IH; reflexivity.
Qed.

Lemma lower_upper (s : string) : lower (upper s) = lower s.
Proof.
  induction s as [|c r IH]; [reflexivity|].
  unfold upper, lower in *; simpl; rewrite lower_upper_char, IH; reflexivity.
Qed.

Lemma upper_empty (s : string) : String.eqb (upper s) "" = String.eqb s "".
Proof. destruct s; reflexivity. Qed.

Lemma lower_empty (s : string) : String.eqb (lower s) "" = String.eqb s "".
Proof. destruct s; reflexivity. Qed.

(** A string whose lower-cased form is a non-empty word is not empty. *)
Lemma lower_word_nonempty (s w : string) :
  lower s = w -> w <> "" -> String.eqb s "" = false.
Proof. intros <- Hw; destruct s; [contradiction|reflexivity]. Qed.

End StringFacts.

(** Case analysis on the DJ names and year strings compared in a goal. *)
Ltac case_names :=
  repeat match goal with
  | |- context [String.eqb ?d ?s] =>
      is_var d; destruct (String.eqb_spec d s); [subst d|]
  end.

Ltac case_ifs :=
  repeat match goal with
  | |- context [if ?b then _ else _] => destruct b
  end.

(** Case analysis on the innermost [match] of the goal, keeping the
    equation of the case. *)
Ltac atomic_destruct :=
  match goal with
  | |- context [match ?x with _ => _ end] =>
      lazymatch x with
      | context [match _ with _ => _ end] => fail
      | _ => destruct x eqn:?; cbv beta iota
      end
  end.

(* ================================================================== *)
(** * Rule engine: [check_dj_availability] and [can_backup] *)
(* ================================================================== *)

Module RuleFacts.
Import Py DjCore Manager StringFacts.

(** A cell whose interpreted status is the word [w]. *)
Lemma status_word (v w : string) :
  lower (strip v) = w -> w <> "" ->
  String.eqb (strip v) "" = false /\ upper (strip v) = upper w.
Proof.
  intros H Hw; split.
  - exact (lower_word_nonempty _ _ H Hw).
  - rewrite <- upper_lower, H; reflexivity.
Qed.

Ltac rule_case H :=
  destruct (status_word _ _ H ltac:(discriminate)) as [Hne Hu];
  unfold check_dj_availability, can_backup, or_else; cbv zeta;
  rewrite H, Hne, Hu; simpl;
  split; case_names; simpl; case_ifs; reflexivity.

(** Claim C10: for every DJ name, cell value, date, bold flag and year,
    [check_dj_availability] never returns [(true, false)]: a DJ that can
    be booked can also be the backup. *)
Theorem check_never_book_without_backup (dj_name value : string)
    (date_obj : option nat) (is_bold : bool) (year : option string) :
  check_dj_availability dj_name value date_obj is_bold year <> (true, false).
Proof.
  unfold check_dj_availability, or_else; cbv zeta.
  case_ifs; simpl; congruence.
Qed.


(** Claim C1: an Unknown status (a non-empty stripped cell that is not a
    recognized status word) is never backup-eligible for [can_backup], for
    every DJ, bold flag, weekday and year; but [check_dj_availability]
    does not give [(false, false)] for it: on Felipe's ["PENDING"] on a
    2026 Saturday it gives [(false, true)]. *)
Theorem unknown_status_outcomes :
  (forall (dj raw : string) (bold : bool) (wd : nat) (y : Z),
      is_unknown_status raw = true -> can_backup dj raw bold wd y = (false, None)) /\
  is_unknown_status "PENDING" = true /\
  check_dj_availability "Felipe" "PENDING" (Some 5%nat) false (Some "2026") = (false, true).
Proof.
  split; [|split; reflexivity].
  intros dj raw bold wd y H; unfold is_unknown_status in H; cbv zeta in H.
  unfold can_backup; cbv zeta.
  rewrite lower_upper, upper_empty, H; reflexivity.
Qed.

(** Failing input of claim C4: a STANFORD cell is [(false, false)] for
    Paul on a Saturday, since [check_dj_availability] has no branch for
    stanford and falls through to its final [(false, false)], while
    [can_backup] treats it as available; and a MAXED cell is
    [(false, true)] for Woody on a Saturday with a non-bold cell. *)
Lemma universal_rows_counterexample :
  check_dj_availability "Woody" "MAXED" (Some 5%nat) false (Some "2026") = (false, true) /\
  check_dj_availability "Paul" "STANFORD" (Some 5%nat) false (Some "2026") = (false, false).
Proof. split; reflexivity. Qed.

(** Claim C4: what the two decisions give on the universal statuses,
    with [st] the interpreted status (the stripped, lower-cased cell):
    - booked, backup and reserved give [(false, false)] in
      [check_dj_availability] and are not backup-eligible in [can_backup];
    - maxed is not backup-eligible, and gives [(false, false)] except for
      Woody on a weekend with a non-bold cell, where it gives
      [(false, true)];
    - stanford and last are backup-eligible in [can_backup]; in
      [check_dj_availability] stanford gives [(false, false)] and last
      [(true, true)], except for Felipe in 2026 and 2027, where both give
      [(false, true)]. *)
Theorem universal_rows (dj v : string) (date : option nat) (bold : bool)
    (year : option string) (wd : nat) (y : Z) :
  let st := lower (strip v) in
  let felipe_new := String.eqb dj "Felipe" && (year_is year "2026" || year_is year "2027") in
  (In st ["booked"; "backup"; "reserved"] ->
     check_dj_availability dj v date bold year = (false, false) /\
     can_backup dj v bold wd y = (false, None)) /\
  (st = "maxed" ->
     check_dj_availability dj v date bold year =
       (if String.eqb dj "Woody" && weekend_of date && negb bold
        then (false, true) else (false, false)) /\
     can_backup dj v bold wd y = (false, None)) /\
  (st = "stanford" ->
     check_dj_availability dj v date bold year =
       (if felipe_new then (false, true) else (false, false)) /\
     can_backup dj v bold wd y = (true, None)) /\
  (st = "last" ->
     check_dj_availability dj v date bold year =
       (if felipe_new then (false, true) else (true, true)) /\
     can_backup dj v bold wd y = (true, None)).
Proof.
  cbv zeta; unfold year_is; destruct year as [ys|];
  (split; [intros Hin; simpl in Hin;
           destruct Hin as [H|[H|[H|[]]]]; symmetry in H; rule_case H|]);
  (split; [intros H; rule_case H|]);
  (split; [intros H; rule_case H|]);
  intros H; rule_case H.
Qed.

End RuleFacts.

(* ================================================================== *)
(** * TBA and DJ booking cells *)
(* ================================================================== *)

Module TbaFacts.
Import Py DjCore Manager.

(** Claim C5: the five equations of [increment_tba]. *)
Theorem increment_tba_equations :
  increment_tba "" = "BOOKED" /\
  increment_tba "BOOKED" = "BOOKED x 2" /\
  increment_tba "BOOKED x 2" = "BOOKED x 3" /\
  increment_tba "AAG" = "BOOKED, AAG" /\
  increment_tba "BOOKED, AAG" = "BOOKED x 2, AAG".
Proof. repeat split; vm_compute; reflexivity. Qed.

(** Claim C7: a ["BOOKED x N"] cell whose [N] does not parse is not read
    as one booking everywhere: [count_booked_events] (the write
    protocol's validation) gives 0 for ["BOOKED x two"], while the TBA
    clause rule of [analyze_availability] counts it as 1. *)
Theorem unparsed_multiplier_counts :
  count_booked_events "BOOKED x two" = 0%Z /\
  tba_entry_count "BOOKED x two" = 1%Z /\
  s_tba_bookings (analyze_availability [("TBA", "BOOKED x two")] (Some 5%nat) (Some "2026"))
    = 1%Z.
Proof. repeat split; vm_compute; reflexivity. Qed.

End TbaFacts.

(* ================================================================== *)
(** * Three-way reconciliation *)
(* ================================================================== *)

Module ComparatorFacts.
Import Comparator.

(** Claim C8: the report does not give each divergent date exactly one
    tag.  A date booked in the gig database only (matrix and calendar
    empty) is reported both as missing from the matrix and as missing
    from the calendar; a date whose matrix matches the gig database but
    whose calendar is empty is reported only as a DJ mismatch, never as
    missing from the calendar. *)
Theorem classification_not_exclusive :
  compare_systems [("3/14", ["Paul"])] [] (Some [])
    = [(MissingFromMatrix, "3/14"); (MissingFromCalendar, "3/14")] /\
  compare_systems [("3/14", ["Paul"])] [("3/14", ["Paul"])] (Some [])
    = [(DjMismatch, "3/14")].
Proof. split; vm_compute; reflexivity. Qed.

End ComparatorFacts.

(* ================================================================== *)
(** * Row analysis *)
(* ================================================================== *)

Module RowFacts.
Import Py DjCore Fixtures.

Lemma first_pass_blank (row : list (string * string)) (c : counts) :
  blank_row row -> fold_left first_pass_step row c = c.
Proof.
  revert c; induction row as [|[k v] row IH]; intros c Hb; [reflexivity|].
  cbn [fold_left]; replace (first_pass_step c (k, v)) with c.
  - apply IH; intros kv Hin; apply Hb; right; exact Hin.
  - destruct (Hb (k, v) (or_introl eq_refl)) as [Hk|Hv]; simpl in *.
    + subst k; reflexivity.
    + subst v; unfold first_pass_step; simpl; rewrite !andb_false_r.
      destruct (String.eqb k "Date"); reflexivity.
Qed.

Lemma second_pass_keeps_tba (d : option nat) (y : option string)
    (row : list (string * string)) (c : counts) :
  tba_bookings (fold_left (second_pass_step d y) row c) = tba_bookings c /\
  aag_reserved (fold_left (second_pass_step d y) row c) = aag_reserved c.
Proof.
  revert c; induction row as [|[k v] row IH]; intros c; [split; reflexivity|].
  cbn [fold_left]; destruct (IH (second_pass_step d y c (k, v))) as [H1 H2].
  rewrite H1, H2; unfold second_pass_step.
  destruct (check_dj_availability _ _ _ _ _); case_ifs; split; reflexivity.
Qed.

Lemma second_pass_blank_backup (d : option nat) (y : option string)
    (row : list (string * string)) (c : counts) :
  blank_row row ->
  backup_count (fold_left (second_pass_step d y) row c) = backup_count c.
Proof.
  revert c; induction row as [|[k v] row IH]; intros c Hb; [reflexivity|].
  cbn [fold_left]; rewrite IH by (intros kv Hin; apply Hb; right; exact Hin).
  destruct (Hb (k, v) (or_introl eq_refl)) as [Hk|Hv]; simpl in *.
  - subst k; reflexivity.
  - subst v; unfold second_pass_step; simpl.
    destruct (check_dj_availability _ _ _ _ _); case_ifs; reflexivity.
Qed.

(** Claim C3: when the analysis finds no assigned backup and no
    backup-eligible DJ, [available_spots] is 0; on a row whose cells are
    all blank with three bookable DJs, [available_spots] is 3 when some
    DJ is backup-eligible and 0 when none is. *)
Theorem forced_zero_spots (row : list (string * string))
    (date_obj : option nat) (year : option string) :
  let s := analyze_availability row date_obj year in
  (s_backup_count s = 0%Z -> s_available_backup s = [] -> s_available_spots s = 0%Z) /\
  (blank_row row -> length (s_available_booking s) = 3%nat ->
     (s_available_backup s <> [] -> s_available_spots s = 3%Z) /\
     (s_available_backup s = [] -> s_available_spots s = 0%Z)).
Proof.
  cbv zeta; unfold analyze_availability; cbv zeta; simpl; split.
  - intros Hb Hl; rewrite Hb, Hl; reflexivity.
  - intros Hb Hlen.
    rewrite (first_pass_blank row counts0 Hb) in *.
    destruct (second_pass_keeps_tba date_obj year row counts0) as [Ht Ha].
    pose proof (second_pass_blank_backup date_obj year row counts0 Hb) as Hk.
    rewrite Ht, Ha, Hk, Hlen; simpl.
    split.
    + intros Hne; destruct (available_for_backup _) eqn:E; [contradiction|reflexivity].
    + intros ->; reflexivity.
Qed.

(** Witness of claim C3: the blank 2026 Saturday row, with Henry, Woody
    and Paul bookable and a backup available, has three spots. *)
Lemma forced_zero_spots_witness :
  let row := [("Date", "Sat 3/14"); ("Henry", ""); ("Woody", ""); ("Paul", "");
              ("Stefano", ""); ("Felipe", ""); ("TBA", ""); ("Stephanie", "");
              ("AAG", "")] in
  let s := analyze_availability row (Some 5%nat) (Some "2026") in
  blank_row row /\ length (s_available_booking s) = 3%nat /\
  s_available_backup s <> [] /\ s_available_spots s = 3%Z.
Proof.
  cbv zeta.
  assert (Hb : blank_row [("Date", "Sat 3/14"); ("Henry", ""); ("Woody", ""); ("Paul", "");
              ("Stefano", ""); ("Felipe", ""); ("TBA", ""); ("Stephanie", "");
              ("AAG", "")]).
  { intros kv Hin; simpl in Hin;
    repeat (destruct Hin as [<-|Hin]; [simpl; auto|]); destruct Hin. }
  assert (Hl : length (s_available_booking (analyze_availability
     [("Date", "Sat 3/14"); ("Henry", ""); ("Woody", ""); ("Paul", "");
      ("Stefano", ""); ("Felipe", ""); ("TBA", ""); ("Stephanie", ""); ("AAG", "")]
     (Some 5%nat) (Some "2026"))) = 3%nat) by (vm_compute; reflexivity).
  assert (Hn : s_available_backup (analyze_availability
     [("Date", "Sat 3/14"); ("Henry", ""); ("Woody", ""); ("Paul", "");
      ("Stefano", ""); ("Felipe", ""); ("TBA", ""); ("Stephanie", ""); ("AAG", "")]
     (Some 5%nat) (Some "2026")) <> []) by (vm_compute; discriminate).
  refine (conj Hb (conj Hl (conj Hn _))).
  exact (proj1 (proj2 (forced_zero_spots _ _ _) Hb Hl) Hn).
Defined.

End RowFacts.

(* ================================================================== *)
(** * Spots remaining: booking manager against row analysis *)
(* ================================================================== *)

Module SpotsFacts.
Import Py DjCore Manager Sheets Fixtures StringFacts.

Lemma is_space_lower (c : ascii) : is_space (lower_char c) = is_space c.
Proof. destruct c as [[] [] [] [] [] [] [] []]; reflexivity. Qed.

Lemma lower_lstrip (s : string) : lower (lstrip s) = lstrip (lower s).
Proof.
  induction s as [|c r IH]; [reflexivity|].
  change (lower (String c r)) with (String (lower_char c) (lower r)).
  cbn [lstrip]; rewrite is_space_lower; destruct (is_space c); [exact IH|reflexivity].
Qed.

Lemma lower_rstrip (s : string) : lower (rstrip s) = rstrip (lower s).
Proof.
  induction s as [|c r IH]; [reflexivity|].
  change (lower (String c r)) with (String (lower_char c) (lower r)).
  cbn [rstrip]; rewrite <- IH, lower_empty, is_space_lower.
  destruct (String.eqb (rstrip r) "" && is_space c); reflexivity.
Qed.

Lemma lower_strip (s : string) : lower (strip s) = strip (lower s).
Proof. unfold strip; rewrite lower_rstrip, lower_lstrip; reflexivity. Qed.

Lemma upper_lower_O (c : ascii) :
  Ascii.eqb (upper_char c) "O" = Ascii.eqb (lower_char c) "o".
Proof. destruct c as [[] [] [] [] [] [] [] []]; reflexivity. Qed.

Lemma upper_lower_K (c : ascii) :
  Ascii.eqb (upper_char c) "K" = Ascii.eqb (lower_char c) "k".
Proof. destruct c as [[] [] [] [] [] [] [] []]; reflexivity. Qed.

Lemma upper_ok (s : string) : String.eqb (upper s) "OK" = String.eqb (lower s) "ok".
Proof.
  destruct s as [|c1 [|c2 [|c3 s]]]; [reflexivity| | |].
  - unfold upper, lower; cbn [smap String.eqb].
    rewrite upper_lower_O; reflexivity.
  - unfold upper, lower; cbn [smap String.eqb].
    rewrite upper_lower_O, upper_lower_K; reflexivity.
  - unfold upper, lower; cbn [smap String.eqb].
    rewrite upper_lower_O, upper_lower_K; reflexivity.
Qed.

Lemma replace_fuel_id (old new s : string) (f : nat) :
  (String.length s <= f)%nat -> contains old s = false -> replace_fuel f old new s = s.
Proof.
  revert f; induction s as [|c r IH]; intros f Hf Hc; destruct f as [|f]; try reflexivity.
  cbn [contains] in Hc; apply orb_false_iff in Hc as [Hp Hc].
  cbn [replace_fuel]; rewrite Hp, IH; [reflexivity| |exact Hc].
  simpl in Hf; lia.
Qed.

Lemma replace_id (old new s : string) :
  contains old s = false -> replace old new s = s.
Proof. intros H; apply replace_fuel_id; [lia|exact H]. Qed.


Lemma check_books_backup (dj_name value : string) (date_obj : option nat)
    (is_bold : bool) (year : option string) :
  fst (check_dj_availability dj_name value date_obj is_bold year) = true ->
  snd (check_dj_availability dj_name value date_obj is_bold year) = true.
Proof.
  unfold check_dj_availability, or_else; cbv zeta.
  case_ifs; simpl; congruence.
Qed.

Lemma second_books (d : option nat) (y : option string) (row : list (string * string))
    (c : counts) :
  available_for_booking (fold_left (second_pass_step d y) row c)
  = app (available_for_booking c) (map fst (filter (second_pass_books d y) row)).
Proof.
  revert c; induction row as [|[n v] row IH]; intros c; cbn [fold_left filter].
  - rewrite app_nil_r; reflexivity.
  - rewrite IH; unfold second_pass_step, second_pass_books; cbv zeta.
    destruct (mem n _); [reflexivity|].
    destruct (String.eqb (lower (replace " (BOLD)" "" v)) "backup"); [reflexivity|].
    destruct (negb _); [|reflexivity].
    destruct (check_dj_availability _ _ _ _ _) as [cb cbk]; simpl.
    destruct cb; simpl; [rewrite <- app_assoc; reflexivity|reflexivity].
Qed.

Lemma second_backup (d : option nat) (y : option string) (row : list (string * string))
    (c : counts) :
  (available_for_backup c = [] -> available_for_booking c = []) ->
  available_for_backup (fold_left (second_pass_step d y) row c) = [] ->
  available_for_booking (fold_left (second_pass_step d y) row c) = [].
Proof.
  revert c; induction row as [|[n v] row IH]; intros c Hc; cbn [fold_left]; [exact Hc|].
  apply IH; unfold second_pass_step; cbv zeta.
  destruct (mem n _); [exact Hc|].
  destruct (String.eqb (lower (replace " (BOLD)" "" v)) "backup"); [exact Hc|].
  destruct (negb _); [|exact Hc].
  pose proof (check_books_backup n (replace " (BOLD)" "" v) d (contains "(BOLD)" v) y) as Hb.
  destruct (check_dj_availability _ _ _ _ _) as [cb cbk]; simpl in *.
  destruct cb, cbk; simpl; try (intros H; destruct (available_for_backup c); discriminate).
  - specialize (Hb eq_refl); discriminate.
  - exact Hc.
Qed.

Lemma first_keeps (row : list (string * string)) (c : counts) :
  available_for_booking (fold_left first_pass_step row c) = available_for_booking c /\
  available_for_backup (fold_left first_pass_step row c) = available_for_backup c.
Proof.
  revert c; induction row as [|[n v] row IH]; intros c; [split; reflexivity|].
  cbn [fold_left]; rewrite (proj1 (IH _)), (proj2 (IH _)).
  assert (Hs : forall es c, available_for_booking (fold_left (fun c e => add_tba (tba_entry_count e) c) es c)
                            = available_for_booking c /\
                            available_for_backup (fold_left (fun c e => add_tba (tba_entry_count e) c) es c)
                            = available_for_backup c).
  { induction es as [|e es IHe]; intros c'; [split; reflexivity|]; cbn [fold_left];
    rewrite (proj1 (IHe _)), (proj2 (IHe _)); split; reflexivity. }
  unfold first_pass_step; cbv zeta.
  case_ifs; try (split; reflexivity); apply Hs.
Qed.

Lemma tba_fold (es : list string) (c : counts) :
  tba_bookings (fold_left (fun c e => add_tba (tba_entry_count e) c) es c)
  = fold_left (fun acc e => (acc + tba_entry_count e)%Z) es (tba_bookings c).
Proof.
  revert c; induction es as [|e es IH]; intros c; [reflexivity|]; cbn [fold_left].
  rewrite IH; reflexivity.
Qed.

Lemma fold_sum_shift {A} (f : A -> Z) (l : list A) (a : Z) :
  fold_left (fun acc x => (acc + f x)%Z) l a = (a + fold_left (fun acc x => (acc + f x)%Z) l 0)%Z.
Proof.
  revert a; induction l as [|x l IH]; intros a; cbn [fold_left]; [lia|].
  rewrite IH, (IH (0 + f x)%Z); lia.
Qed.

Lemma first_tba (row : list (string * string)) (c : counts) :
  tba_bookings (fold_left first_pass_step row c)
  = fold_left (fun acc kv => (acc + first_pass_tba kv)%Z) row (tba_bookings c).
Proof.
  revert c; induction row as [|[n v] row IH]; intros c; [reflexivity|].
  cbn [fold_left]; rewrite IH; f_equal.
  unfold first_pass_step, first_pass_tba; cbv zeta.
  destruct (String.eqb n "Date"); [simpl; lia|].
  destruct (String.eqb n "AAG" && _); [simpl; lia|].
  destruct (String.eqb n "Stephanie" && _); [simpl; lia|].
  destruct (String.eqb n "TBA" && _).
  - rewrite tba_fold, fold_sum_shift; reflexivity.
  - destruct (_ || _); simpl; lia.
Qed.

Lemma first_aag (row : list (string * string)) (c : counts) :
  aag_reserved (fold_left first_pass_step row c)
  = aag_reserved c || existsb first_pass_aag row.
Proof.
  assert (Hs : forall es c, aag_reserved (fold_left (fun c e => add_tba (tba_entry_count e) c) es c)
                            = aag_reserved c).
  { induction es as [|e es IHe]; intros c'; [reflexivity|]; cbn [fold_left]; rewrite IHe; reflexivity. }
  revert c; induction row as [|[n v] row IH]; intros c; [simpl; rewrite orb_false_r; reflexivity|].
  cbn [fold_left existsb]; rewrite IH.
  cbv beta iota zeta delta [first_pass_step first_pass_aag].
  destruct (String.eqb n "Date") eqn:Ed.
  - apply String.eqb_eq in Ed; subst n; reflexivity.
  - destruct ((n =? "AAG") && contains "reserved" (lower (replace " (BOLD)" "" v)));
      [simpl; destruct (aag_reserved c); reflexivity|].
    rewrite orb_false_l; case_ifs; try reflexivity; rewrite Hs; reflexivity.
Qed.


Lemma mem_skip_false (name : string) :
  In name ["Henry"; "Woody"; "Paul"; "Stefano"; "Felipe"] ->
  mem name ["Date"; "TBA"; "AAG"; "Stephanie"] = false.
Proof. intros H; simpl in H; repeat destruct H as [<-|H]; try reflexivity; destruct H. Qed.

Lemma dj_books (name v : string) (d : option nat) (y : option string) :
  In name ["Henry"; "Woody"; "Paul"; "Stefano"; "Felipe"] ->
  In y [Some "2025"; Some "2026"; Some "2027"] ->
  contains " (BOLD)" v = false ->
  (name = "Henry" -> weekend_of d = true \/ strip v <> "") ->
  (name = "Felipe" /\ y <> Some "2025" \/ lower (strip v) <> "ok" /\ lower (strip v) <> "last") ->
  second_pass_books d y (name, v) =
    if String.eqb name "Stefano" then false
    else if String.eqb name "Felipe" && negb (year_is y "2025")
    then String.eqb (lower (strip v)) "ok"
    else String.eqb (strip v) "".
Proof.
  intros Hn Hy Hb HH Hok.
  cbv beta iota zeta delta [second_pass_books].
  rewrite (mem_skip_false _ Hn), (replace_id _ _ _ Hb).
  pose proof (lower_strip v) as Hx.
  assert (Hbl : String.eqb (strip v) "" = true -> lower (strip v) = "").
  { intros E; apply String.eqb_eq in E; rewrite E; reflexivity. }
  destruct (String.eqb (lower v) "backup") eqn:E1.
  { apply String.eqb_eq in E1; rewrite E1 in Hx.
    replace (strip "backup") with "backup" in Hx by reflexivity.
    destruct (String.eqb (strip v) "") eqn:E2; [specialize (Hbl eq_refl); congruence|].
    rewrite Hx; cbn [negb]; case_ifs; reflexivity. }
  destruct (String.eqb (lower v) "booked") eqn:E3.
  { apply String.eqb_eq in E3; rewrite E3 in Hx.
    replace (strip "booked") with "booked" in Hx by reflexivity.
    destruct (String.eqb (strip v) "") eqn:E2; [specialize (Hbl eq_refl); congruence|].
    rewrite Hx; cbn [negb]; case_ifs; reflexivity. }
  cbn [negb]; clear E1 E3 Hx.
  unfold check_dj_availability, or_else; cbv zeta.
  generalize (contains "(BOLD)" v) as bold; intros bold.
  assert (HH' : name = "Henry" -> weekend_of d = true \/ String.eqb (strip v) "" = false).
  { intros E; destruct (HH E) as [W|W]; [left; exact W|right; apply String.eqb_neq; exact W]. }
  clear HH.
  remember (String.eqb (strip v) "") as bl eqn:Ebl.
  destruct bl.
  - rewrite (Hbl eq_refl) in *.
    simpl in Hn, Hy; repeat destruct Hn as [<-|Hn]; try destruct Hn;
      repeat destruct Hy as [<-|Hy]; try destruct Hy;
      destruct (weekend_of d); simpl; try reflexivity;
      try (destruct (HH' eq_refl) as [W|W]; discriminate);
      try (destruct Hok as [[Hf Hy']|[Hy' Hy'']]; solve [discriminate | congruence]).
  - clear Hbl Ebl.
    set (x := lower (strip v)) in *; clearbody x.
    simpl in Hn, Hy; repeat destruct Hn as [<-|Hn]; try destruct Hn;
      repeat destruct Hy as [<-|Hy]; try destruct Hy;
      destruct (weekend_of d); simpl;
      repeat match goal with |- context [String.eqb x ?l] =>
        let E := fresh "E" in destruct (String.eqb x l) eqn:E;
        [apply String.eqb_eq in E; subst x|] end;
      simpl; try reflexivity; try (destruct bold; reflexivity);
      try (destruct Hok as [[Hf Hy']|[Hy' Hy'']]; solve [discriminate | congruence]).
Qed.

Lemma second_keeps (d : option nat) (y : option string) (row : list (string * string))
    (c : counts) :
  tba_bookings (fold_left (second_pass_step d y) row c) = tba_bookings c /\
  aag_reserved (fold_left (second_pass_step d y) row c) = aag_reserved c.
Proof.
  revert c; induction row as [|[n v] row IH]; intros c; [split; reflexivity|].
  cbn [fold_left]; rewrite (proj1 (IH _)), (proj2 (IH _)).
  unfold second_pass_step; cbv zeta.
  case_ifs; try (split; reflexivity).
  destruct (check_dj_availability _ _ _ _ _) as [[] []]; split; reflexivity.
Qed.



Lemma count_cells_length (f : string * string -> bool) (row : list (string * string)) :
  Z.of_nat (length (filter f row)) = count_cells f row.
Proof.
  induction row as [|kv row IH]; [reflexivity|]; cbn [filter count_cells fold_right].
  fold (count_cells f row); rewrite <- IH; destruct (f kv); simpl length; lia.
Qed.

Lemma analyze_spots_eq (row : list (string * string)) (d : option nat) (y : option string) :
  s_available_spots (analyze_availability row d y) =
  let l := count_cells (second_pass_books d y) row in
  let t := fold_left (fun acc kv => (acc + first_pass_tba kv)%Z) row 0%Z in
  let s := if (0 <? t)%Z then max0 (l - t) else l in
  if existsb first_pass_aag row then max0 (s - 1) else s.
Proof.
  unfold analyze_availability; cbv zeta; cbn [s_available_spots].
  pose proof (second_backup d y row (fold_left first_pass_step row counts0)) as Hbk.
  rewrite (proj1 (first_keeps _ _)), (proj2 (first_keeps _ _)) in Hbk.
  specialize (Hbk (fun _ => eq_refl)).
  rewrite second_books, (proj1 (second_keeps _ _ _ _)), (proj2 (second_keeps _ _ _ _)),
    first_tba, first_aag, (proj1 (first_keeps _ _)) in *.
  cbn [app available_for_booking counts0 tba_bookings aag_reserved orb] in *.
  rewrite length_map, count_cells_length.
  destruct ((backup_count _ =? 0)%Z && _)%bool eqn:Ef; [|reflexivity].
  apply andb_true_iff in Ef as [_ Ef]; apply Nat.eqb_eq, length_zero_iff_nil in Ef.
  specialize (Hbk Ef); apply map_eq_nil in Hbk.
  rewrite <- count_cells_length, Hbk; cbn [length Z.of_nat filter]; cbv zeta.
  destruct (0 <? _)%Z eqn:E; [apply Z.ltb_lt in E|];
    destruct (existsb _ _); unfold max0; lia.
Qed.

(** [calculate_spots_remaining] as one sum. *)
Lemma calc_eq (row : list (string * string)) (y : Z) (d : option nat) :
  calculate_spots_remaining row y d =
  max0 ((if String.eqb (cell_norm "Henry" row) "" then 1 else 0)
        + (if String.eqb (cell_norm "Woody" row) "" then 1 else 0)
        + (if String.eqb (cell_norm "Paul" row) "" then 1 else 0)
        + (if (2026 <=? y)%Z then (if String.eqb (cell_norm "Felipe" row) "OK" then 1 else 0)
           else (if String.eqb (cell_norm "Felipe" row) "" then 1 else 0))
        + (if (2027 <=? y)%Z && has_key "Stephanie" row then
             (if String.eqb (cell_norm "Stephanie" row) "" && weekend_of d then 1 else 0)
           else 0)
        - parse_tba_value (get "TBA" row)
        - (if match col_lookup "AAG" (column_map_or_2026 y) with Some _ => true | None => false end
              && has_key "AAG" row then
             (if String.eqb (cell_norm "AAG" row) "RESERVED" then 1 else 0)
           else 0))%Z.
Proof.
  unfold calculate_spots_remaining; cbv zeta; cbn [fold_left].
  f_equal; case_ifs; lia.
Qed.

Lemma skip_books (name v : string) (d : option nat) (y : option string) :
  mem name ["Date"; "TBA"; "AAG"; "Stephanie"] = true -> second_pass_books d y (name, v) = false.
Proof. intros H; cbv beta iota zeta delta [second_pass_books]; rewrite H; reflexivity. Qed.

Lemma tba_part (n v : string) :
  first_pass_tba (n, v) =
  if String.eqb n "TBA" then parse_tba_value (replace " (BOLD)" "" v) else 0%Z.
Proof.
  cbv beta iota zeta delta [first_pass_tba parse_tba_value].
  destruct (String.eqb n "Date") eqn:Ed;
    [apply String.eqb_eq in Ed; subst n; reflexivity|].
  destruct (String.eqb n "TBA") eqn:Et.
  - apply String.eqb_eq in Et; subst n; cbn [andb String.eqb Ascii.eqb Bool.eqb].
    destruct (_ || _); reflexivity.
  - rewrite andb_false_l; case_ifs; reflexivity.
Qed.

Ltac dj_hyp Hdj n :=
  let H := fresh in
  destruct (Hdj n ltac:(simpl; tauto)) as [[? ?]|H];
  [(left; split; [assumption|discriminate]) || (exfalso; lia)|right; exact H].

Lemma agree_2025 (h w p st f t sd : string) (d : option nat) :
  let row := [("Henry", h); ("Woody", w); ("Paul", p); ("Stefano", st); ("Felipe", f);
              ("TBA", t); ("Stephanie", sd)] in
  (forall kv, In kv row -> contains " (BOLD)" (snd kv) = false) ->
  (forall dj, In dj ["Henry"; "Woody"; "Paul"; "Stefano"; "Felipe"] ->
     (dj = "Felipe" /\ (2026 <= 2025)%Z) \/
     (lower (strip (get dj row)) <> "ok" /\ lower (strip (get dj row)) <> "last")) ->
  weekend_of d = true \/ strip h <> "" ->
  (0 <= parse_tba_value t)%Z ->
  calculate_spots_remaining row 2025 d =
  s_available_spots (analyze_availability row d (Some "2025")).
Proof.
  intros row Hb Hdj Hw Ht.
  assert (Hb' : forall n v, In (n, v) row -> contains " (BOLD)" v = false)
    by (intros n v H; exact (Hb (n, v) H)).
  rewrite calc_eq, analyze_spots_eq; cbv zeta; unfold count_cells.
  subst row; cbn [fold_right fold_left existsb].
  rewrite (dj_books "Henry" h d (Some "2025") ltac:(simpl; tauto) ltac:(simpl; tauto)
             (Hb' "Henry" h ltac:(simpl; tauto)) (fun _ => Hw) ltac:(dj_hyp Hdj "Henry")).
  rewrite (dj_books "Woody" w d (Some "2025") ltac:(simpl; tauto) ltac:(simpl; tauto)
             (Hb' "Woody" w ltac:(simpl; tauto)) ltac:(discriminate) ltac:(dj_hyp Hdj "Woody")).
  rewrite (dj_books "Paul" p d (Some "2025") ltac:(simpl; tauto) ltac:(simpl; tauto)
             (Hb' "Paul" p ltac:(simpl; tauto)) ltac:(discriminate) ltac:(dj_hyp Hdj "Paul")).
  rewrite (dj_books "Stefano" st d (Some "2025") ltac:(simpl; tauto) ltac:(simpl; tauto)
             (Hb' "Stefano" st ltac:(simpl; tauto)) ltac:(discriminate) ltac:(dj_hyp Hdj "Stefano")).
  rewrite (dj_books "Felipe" f d (Some "2025") ltac:(simpl; tauto) ltac:(simpl; tauto)
             (Hb' "Felipe" f ltac:(simpl; tauto)) ltac:(discriminate) ltac:(dj_hyp Hdj "Felipe")).
  rewrite !skip_books by reflexivity.
  rewrite !tba_part.
  unfold first_pass_aag; cbv beta iota.
  rewrite (replace_id _ _ t (Hb' "TBA" t ltac:(simpl; tauto))).
  unfold cell_norm; simpl; rewrite !upper_empty.
  revert Ht; generalize (parse_tba_value t) as T; intros T Ht.
  destruct (String.eqb (strip h) ""), (String.eqb (strip w) ""), (String.eqb (strip p) ""),
    (String.eqb (strip f) "");
    destruct (0 <? T + 0)%Z eqn:E; try apply Z.ltb_lt in E; try apply Z.ltb_ge in E;
    unfold max0; lia.
Qed.

Lemma agree_2026 (h w p st f t sd a : string) (d : option nat) :
  let row := [("Henry", h); ("Woody", w); ("Paul", p); ("Stefano", st); ("Felipe", f);
              ("TBA", t); ("Stephanie", sd); ("AAG", a)] in
  (forall kv, In kv row -> contains " (BOLD)" (snd kv) = false) ->
  (forall dj, In dj ["Henry"; "Woody"; "Paul"; "Stefano"; "Felipe"] ->
     (dj = "Felipe" /\ (2026 <= 2026)%Z) \/
     (lower (strip (get dj row)) <> "ok" /\ lower (strip (get dj row)) <> "last")) ->
  weekend_of d = true \/ strip h <> "" ->
  contains "reserved" (lower a) = String.eqb (upper (strip a)) "RESERVED" ->
  (0 <= parse_tba_value t)%Z ->
  calculate_spots_remaining row 2026 d =
  s_available_spots (analyze_availability row d (Some "2026")).
Proof.
  intros row Hb Hdj Hw Ha Ht.
  assert (Hb' : forall n v, In (n, v) row -> contains " (BOLD)" v = false)
    by (intros n v H; exact (Hb (n, v) H)).
  rewrite calc_eq, analyze_spots_eq; cbv zeta; unfold count_cells.
  subst row; cbn [fold_right fold_left existsb].
  rewrite (dj_books "Henry" h d (Some "2026") ltac:(simpl; tauto) ltac:(simpl; tauto)
             (Hb' "Henry" h ltac:(simpl; tauto)) (fun _ => Hw) ltac:(dj_hyp Hdj "Henry")).
  rewrite (dj_books "Woody" w d (Some "2026") ltac:(simpl; tauto) ltac:(simpl; tauto)
             (Hb' "Woody" w ltac:(simpl; tauto)) ltac:(discriminate) ltac:(dj_hyp Hdj "Woody")).
  rewrite (dj_books "Paul" p d (Some "2026") ltac:(simpl; tauto) ltac:(simpl; tauto)
             (Hb' "Paul" p ltac:(simpl; tauto)) ltac:(discriminate) ltac:(dj_hyp Hdj "Paul")).
  rewrite (dj_books "Stefano" st d (Some "2026") ltac:(simpl; tauto) ltac:(simpl; tauto)
             (Hb' "Stefano" st ltac:(simpl; tauto)) ltac:(discriminate) ltac:(dj_hyp Hdj "Stefano")).
  rewrite (dj_books "Felipe" f d (Some "2026") ltac:(simpl; tauto) ltac:(simpl; tauto)
             (Hb' "Felipe" f ltac:(simpl; tauto)) ltac:(discriminate) ltac:(dj_hyp Hdj "Felipe")).
  rewrite !skip_books by reflexivity.
  rewrite !tba_part.
  unfold first_pass_aag; cbv beta iota.
  rewrite (replace_id _ _ t (Hb' "TBA" t ltac:(simpl; tauto))).
  rewrite (replace_id _ _ a (Hb' "AAG" a ltac:(simpl; tauto))).
  unfold cell_norm; simpl; rewrite !upper_empty, upper_ok, Ha, orb_false_r.
  revert Ht; generalize (parse_tba_value t) as T; intros T Ht.
  destruct (String.eqb (strip h) ""), (String.eqb (strip w) ""), (String.eqb (strip p) ""),
    (String.eqb (lower (strip f)) "ok"), (String.eqb (upper (strip a)) "RESERVED");
    destruct (0 <? T + 0 + 0)%Z eqn:E; try apply Z.ltb_lt in E; try apply Z.ltb_ge in E;
    unfold max0; lia.
Qed.

Lemma agree_2027 (h w p st sd t a f : string) (d : option nat) :
  let row := [("Henry", h); ("Woody", w); ("Paul", p); ("Stefano", st); ("Stephanie", sd);
              ("TBA", t); ("AAG", a); ("Felipe", f)] in
  (forall kv, In kv row -> contains " (BOLD)" (snd kv) = false) ->
  (forall dj, In dj ["Henry"; "Woody"; "Paul"; "Stefano"; "Felipe"] ->
     (dj = "Felipe" /\ (2026 <= 2027)%Z) \/
     (lower (strip (get dj row)) <> "ok" /\ lower (strip (get dj row)) <> "last")) ->
  weekend_of d = true \/ strip h <> "" ->
  (weekend_of d = true -> strip sd <> "") ->
  contains "reserved" (lower a) = String.eqb (upper (strip a)) "RESERVED" ->
  (0 <= parse_tba_value t)%Z ->
  calculate_spots_remaining row 2027 d =
  s_available_spots (analyze_availability row d (Some "2027")).
Proof.
  intros row Hb Hdj Hw Hsd Ha Ht.
  assert (Hb' : forall n v, In (n, v) row -> contains " (BOLD)" v = false)
    by (intros n v H; exact (Hb (n, v) H)).
  rewrite calc_eq, analyze_spots_eq; cbv zeta; unfold count_cells.
  subst row; cbn [fold_right fold_left existsb].
  rewrite (dj_books "Henry" h d (Some "2027") ltac:(simpl; tauto) ltac:(simpl; tauto)
             (Hb' "Henry" h ltac:(simpl; tauto)) (fun _ => Hw) ltac:(dj_hyp Hdj "Henry")).
  rewrite (dj_books "Woody" w d (Some "2027") ltac:(simpl; tauto) ltac:(simpl; tauto)
             (Hb' "Woody" w ltac:(simpl; tauto)) ltac:(discriminate) ltac:(dj_hyp Hdj "Woody")).
  rewrite (dj_books "Paul" p d (Some "2027") ltac:(simpl; tauto) ltac:(simpl; tauto)
             (Hb' "Paul" p ltac:(simpl; tauto)) ltac:(discriminate) ltac:(dj_hyp Hdj "Paul")).
  rewrite (dj_books "Stefano" st d (Some "2027") ltac:(simpl; tauto) ltac:(simpl; tauto)
             (Hb' "Stefano" st ltac:(simpl; tauto)) ltac:(discriminate) ltac:(dj_hyp Hdj "Stefano")).
  rewrite (dj_books "Felipe" f d (Some "2027") ltac:(simpl; tauto) ltac:(simpl; tauto)
             (Hb' "Felipe" f ltac:(simpl; tauto)) ltac:(discriminate) ltac:(dj_hyp Hdj "Felipe")).
  rewrite !skip_books by reflexivity.
  rewrite !tba_part.
  unfold first_pass_aag; cbv beta iota.
  rewrite (replace_id _ _ t (Hb' "TBA" t ltac:(simpl; tauto))).
  rewrite (replace_id _ _ a (Hb' "AAG" a ltac:(simpl; tauto))).
  unfold cell_norm; simpl; rewrite !upper_empty, upper_ok, Ha, orb_false_r.
  assert (Hs : String.eqb (strip sd) "" && weekend_of d = false).
  { destruct (weekend_of d); [|apply andb_false_r].
    rewrite andb_true_r; apply String.eqb_neq, Hsd; reflexivity. }
  rewrite Hs.
  revert Ht; generalize (parse_tba_value t) as T; intros T Ht.
  destruct (String.eqb (strip h) ""), (String.eqb (strip w) ""), (String.eqb (strip p) ""),
    (String.eqb (lower (strip f)) "ok"), (String.eqb (upper (strip a)) "RESERVED");
    destruct (0 <? _)%Z eqn:E; try apply Z.ltb_lt in E; try apply Z.ltb_ge in E;
    unfold max0; lia.
Qed.


(** Counterexample to claim C9: [calculate_spots_remaining] and the
    [available_spots] of [analyze_availability] differ on
    - a blank 2026 weekday row (3 against 2: Henry is not bookable on a
      weekday in the Row Analyzer);
    - a 2026 Saturday with Woody's cell OK, or Stefano's cell LAST;
    - a 2026 Saturday with Henry's cell [" (BOLD)"];
    - a 2026 Saturday with the TBA cell [BOOKED x -1];
    - a 2026 Saturday with the AAG cell [UNRESERVED];
    - a 2025 Saturday with Felipe's cell OK;
    - a blank 2027 Saturday (Stephanie's blank cell is counted by the
      booking manager only);
    - a 2028 Saturday with Stephanie's cell OUT. *)
Lemma spots_refinement_counterexample :
  let both y rv d :=
    let row := Sheets.row_dict (column_map_or_2026 y) rv in
    (calculate_spots_remaining row y d,
     s_available_spots (analyze_availability row d (Some (str y)))) in
  calculate_spots_remaining (tl (row2026 "" "" "" "" "" "" "" "")) 2026 (Some 2%nat) = 3%Z /\
  s_available_spots (analyze_availability (tl (row2026 "" "" "" "" "" "" "" ""))
                       (Some 2%nat) (Some "2026")) = 2%Z /\
  both 2026%Z ["Sat"; ""; ""; ""; "OK"; ""; ""; ""; ""; ""; ""; ""] (Some 5%nat) = (2, 3)%Z /\
  both 2026%Z ["Sat"; ""; ""; ""; ""; ""; "LAST"; ""; ""; ""; ""; ""] (Some 5%nat) = (3, 4)%Z /\
  both 2026%Z ["Sat"; ""; ""; " (BOLD)"; "OUT"; ""; ""; ""; ""; ""; ""; ""] (Some 5%nat) = (1, 2)%Z /\
  both 2026%Z ["Sat"; ""; ""; ""; ""; ""; ""; ""; "BOOKED x -1"; ""; ""; ""] (Some 5%nat) = (4, 3)%Z /\
  both 2026%Z ["Sat"; ""; ""; ""; ""; ""; ""; ""; ""; ""; ""; "UNRESERVED"] (Some 5%nat) = (3, 2)%Z /\
  both 2025%Z ["Sat"; ""; ""; "OUT"; ""; ""; ""; "OK"; ""; ""; ""] (Some 5%nat) = (2, 3)%Z /\
  both 2027%Z ["Sat"; ""; ""; ""; ""; ""; ""; ""; ""; ""; ""; ""] (Some 5%nat) = (4, 3)%Z /\
  both 2028%Z ["Sat"; ""; ""; ""; ""; ""; ""; ""; ""; ""; "OUT"; ""] (Some 5%nat) = (3, 4)%Z.
Proof. cbv zeta; repeat split; vm_compute; reflexivity. Qed.

(** Claim C9 (amended): [calculate_spots_remaining] and the
    [available_spots] of [analyze_availability] agree on the row
    [get_row_data] reads from any sheet values of 2025, 2026 or 2027, when
    no cell holds the bold annotation [" (BOLD)"]; no cell of Henry, Woody,
    Paul or Stefano, nor Felipe's in 2025, reads OK or LAST; Henry's cell
    is not blank on a weekday (or without a date); Stephanie's 2027 cell is
    not blank on a weekend; the TBA cell does not count negatively; and
    the AAG cell contains "reserved" only when it reads RESERVED (cases
    ignored, surrounding whitespace stripped). *)
Theorem spots_agree_on_rows (y : Z) (rv : list string) (date_obj : option nat) :
  let row := Sheets.row_dict (column_map_or_2026 y) rv in
  (2025 <= y <= 2027)%Z ->
  (forall kv, In kv row -> contains " (BOLD)" (snd kv) = false) ->
  (forall dj, In dj ["Henry"; "Woody"; "Paul"; "Stefano"; "Felipe"] ->
     (dj = "Felipe" /\ (2026 <= y)%Z) \/
     (lower (strip (get dj row)) <> "ok" /\ lower (strip (get dj row)) <> "last")) ->
  weekend_of date_obj = true \/ strip (get "Henry" row) <> "" ->
  (y = 2027%Z -> weekend_of date_obj = true -> strip (get "Stephanie" row) <> "") ->
  (0 <= parse_tba_value (get "TBA" row))%Z ->
  contains "reserved" (lower (get "AAG" row))
    = String.eqb (upper (strip (get "AAG" row))) "RESERVED" ->
  calculate_spots_remaining row y date_obj =
  s_available_spots (analyze_availability row date_obj (Some (str y))).
Proof.
  intros row Hy Hb Hdj Hw Hsd Ht Ha.
  assert (y = 2025 \/ y = 2026 \/ y = 2027)%Z as [ -> | [ -> | -> ] ] by lia; subst row.
  - exact (agree_2025 _ _ _ _ _ _ _ date_obj Hb Hdj Hw Ht).
  - exact (agree_2026 _ _ _ _ _ _ _ _ date_obj Hb Hdj Hw Ha Ht).
  - exact (agree_2027 _ _ _ _ _ _ _ _ date_obj Hb Hdj Hw (Hsd eq_refl) Ha Ht).
Qed.

(** Witness of claim C9: a 2026 Sunday with Henry free, Woody out, Paul
    booked, Stefano on backup, Felipe OK and one TBA booking. *)
Lemma spots_agree_on_rows_witness :
  calculate_spots_remaining
    (Sheets.row_dict (column_map_or_2026 2026)
       ["Sun 11/22"; ""; ""; ""; "OUT"; "BOOKED"; "BACKUP"; "OK"; "BOOKED"; ""; ""; ""])
    2026 (Some 6%nat) = 1%Z /\
  calculate_spots_remaining
    (Sheets.row_dict (column_map_or_2026 2026)
       ["Sun 11/22"; ""; ""; ""; "OUT"; "BOOKED"; "BACKUP"; "OK"; "BOOKED"; ""; ""; ""])
    2026 (Some 6%nat)
  = s_available_spots (analyze_availability
      (Sheets.row_dict (column_map_or_2026 2026)
         ["Sun 11/22"; ""; ""; ""; "OUT"; "BOOKED"; "BACKUP"; "OK"; "BOOKED"; ""; ""; ""])
      (Some 6%nat) (Some (str 2026))).
Proof.
  split; [vm_compute; reflexivity|].
  apply spots_agree_on_rows.
  - lia.
  - apply Forall_forall; vm_compute; repeat constructor.
  - intros dj Hd; simpl in Hd.
    destruct Hd as [Hd|[Hd|[Hd|[Hd|[Hd|[]]]]]]; subst dj;
      first [left; split; [reflexivity|lia]
            | right; split; vm_compute; discriminate].
  - left; reflexivity.
  - discriminate.
  - vm_compute; discriminate.
  - vm_compute; reflexivity.
Defined.

End SpotsFacts.

(* ================================================================== *)
(** * Incrementing booking cells: digits, cell shapes, round trip *)
(* ================================================================== *)

Module DigitFacts.
Import Py.

Lemma digit_char_facts (c : ascii) : is_digit c = true ->
  is_space c = false /\ lower_char c = c /\ upper_char c = c /\
  Ascii.eqb c "-" = false /\ Ascii.eqb c "+" = false /\ Ascii.eqb c "_" = false /\
  Ascii.eqb c "," = false /\ Ascii.eqb c "x" = false.
Proof. destruct c as [[] [] [] [] [] [] [] []]; try discriminate; intros _; repeat split. Qed.

Lemma smap_app (f : ascii -> ascii) (a b : string) : smap f (a ++ b) = smap f a ++ smap f b.
Proof. induction a as [|c a IH]; simpl; [reflexivity|rewrite IH; reflexivity]. Qed.

Lemma append_assoc' (a b c : string) : a ++ (b ++ c) = (a ++ b) ++ c.
Proof. induction a as [|x a IH]; simpl; [reflexivity|rewrite IH; reflexivity]. Qed.

Lemma append_nil_r (a : string) : a ++ "" = a.
Proof. induction a as [|x a IH]; simpl; [reflexivity|rewrite IH; reflexivity]. Qed.

Lemma sforall_impl (p q : ascii -> bool) (s : string) :
  (forall c, p c = true -> q c = true) -> sforall p s = true -> sforall q s = true.
Proof.
  intros Hpq; induction s as [|c s IH]; simpl; [reflexivity|].
  intros H; apply andb_true_iff in H as [H1 H2]; rewrite (Hpq c H1), (IH H2); reflexivity.
Qed.

Lemma sforall_digit_char (s : string) (c : ascii) (r : string) :
  s = String c r -> sforall is_digit s = true -> is_digit c = true /\ sforall is_digit r = true.
Proof. intros ->; simpl; apply andb_true_iff. Qed.

Lemma lower_digits (d : string) : sforall is_digit d = true -> lower d = d.
Proof.
  induction d as [|c d IH]; simpl; [reflexivity|]; intros H.
  apply andb_true_iff in H as [H1 H2]; unfold lower in *; simpl.
  destruct (digit_char_facts c H1) as (_ & -> & _); rewrite (IH H2); reflexivity.
Qed.

Lemma upper_digits (d : string) : sforall is_digit d = true -> upper d = d.
Proof.
  induction d as [|c d IH]; simpl; [reflexivity|]; intros H.
  apply andb_true_iff in H as [H1 H2]; unfold upper in *; simpl.
  destruct (digit_char_facts c H1) as (_ & _ & -> & _); rewrite (IH H2); reflexivity.
Qed.

Lemma rstrip_digits (d : string) : sforall is_digit d = true -> rstrip d = d.
Proof.
  induction d as [|c d IH]; simpl; [reflexivity|]; intros H.
  apply andb_true_iff in H as [H1 H2]; rewrite (IH H2).
  destruct (digit_char_facts c H1) as (-> & _); rewrite andb_false_r; reflexivity.
Qed.

Lemma rstrip_app (a b : string) : rstrip b = b -> b <> "" -> rstrip (a ++ b) = a ++ b.
Proof.
  intros Hb Hne; induction a as [|c a IH]; simpl; [exact Hb|].
  rewrite IH; destruct a; simpl;
    [destruct b; [contradiction|reflexivity]|reflexivity].
Qed.

Lemma strip_head_digits (c : ascii) (a d : string) :
  is_space c = false -> sforall is_digit d = true -> d <> "" ->
  strip (String c a ++ d) = String c a ++ d.
Proof.
  intros Hc Hd Hne; unfold strip; simpl; rewrite Hc.
  exact (rstrip_app (String c a) d (rstrip_digits d Hd) Hne).
Qed.

Lemma scan_digits (d : string) : sforall is_digit d = true -> scan_us false d = Some d.
Proof.
  induction d as [|c d IH]; simpl; [reflexivity|]; intros H.
  apply andb_true_iff in H as [H1 H2].
  destruct (digit_char_facts c H1) as (_ & _ & _ & _ & _ & -> & _).
  rewrite (IH H2); reflexivity.
Qed.

Lemma uint_digits (u : Decimal.uint) : sforall is_digit (NilEmpty.string_of_uint u) = true.
Proof. induction u; simpl; rewrite ?IHu; reflexivity. Qed.

Lemma to_uint_not_nil (p : positive) : Pos.to_uint p <> Decimal.Nil.
Proof.
  intros H; pose proof (DecimalPos.Unsigned.of_to p) as E; rewrite H in E; discriminate.
Qed.

(** [str n] is a non-empty string of digits that [int] reads back. *)
Lemma str_digits (n : Z) : (0 <= n)%Z ->
  str n <> "" /\ sforall is_digit (str n) = true /\ int (str n) = Some n.
Proof.
  intros Hn.
  assert (Hu : exists u, Z.to_int n = Decimal.Pos u /\ u <> Decimal.Nil).
  { destruct n as [|p|p]; simpl.
    - exists (Decimal.D0 Decimal.Nil); split; [reflexivity|discriminate].
    - exists (Pos.to_uint p); split; [reflexivity|apply to_uint_not_nil].
    - lia. }
  destruct Hu as [u [Hto Hnil]].
  assert (Hs : str n = NilEmpty.string_of_uint u).
  { unfold str; rewrite Hto; simpl; destruct u; [contradiction|..]; reflexivity. }
  rewrite Hs.
  pose proof (uint_digits u) as Hd.
  destruct (NilEmpty.string_of_uint u) as [|c r] eqn:E.
  - destruct u; try discriminate; contradiction.
  - split; [discriminate|split; [exact Hd|]].
    destruct (sforall_digit_char _ c r eq_refl Hd) as [Hc Hr].
    destruct (digit_char_facts c Hc) as (Hsp & _ & _ & Hm & Hp & Hus & _).
    assert (Hst : strip (String c r) = String c r)
      by (unfold strip; simpl; rewrite Hsp; apply rstrip_digits; exact Hd).
    unfold int; rewrite Hst, Hm, Hp; unfold digits_of; rewrite Hus.
    rewrite (scan_digits (String c r) Hd).
    change (NilZero.uint_of_string (String c r)) with (NilEmpty.uint_of_string (String c r)).
    rewrite <- E, NilEmpty.usu; cbn [option_map].
    rewrite <- Hto; f_equal; apply DecimalZ.of_to.
Qed.

End DigitFacts.

Module CellFacts.
Import Py DigitFacts.

Lemma space_char_facts (c : ascii) : is_space c = true -> lower_char c = c.
Proof. destruct c as [[] [] [] [] [] [] [] []]; try discriminate; reflexivity. Qed.

Lemma length_app (a b : string) : String.length (a ++ b) = (String.length a + String.length b)%nat.
Proof. induction a as [|c a IH]; simpl; [reflexivity|rewrite IH; reflexivity]. Qed.

Lemma sforall_app (p : ascii -> bool) (a b : string) :
  sforall p (a ++ b) = sforall p a && sforall p b.
Proof.
  induction a as [|c a IH]; simpl; [reflexivity|rewrite IH, andb_assoc; reflexivity].
Qed.

Lemma prefix_app (a b : string) : String.prefix a (a ++ b) = true.
Proof.
  induction a as [|c a IH]; simpl; [destruct b; reflexivity|].
  destruct (ascii_dec c c); [exact IH|contradiction].
Qed.

Lemma prefix_app_l (sub a b : string) :
  String.prefix sub a = true -> String.prefix sub (a ++ b) = true.
Proof.
  revert a; induction sub as [|x sub IH]; intros a H; [destruct (a ++ b); reflexivity|].
  destruct a as [|c a]; [discriminate|]; simpl in *.
  destruct (ascii_dec x c); [exact (IH a H)|discriminate].
Qed.

Lemma contains_app_l (sub a b : string) :
  contains sub a = true -> contains sub (a ++ b) = true.
Proof.
  induction a as [|c a IH]; intros H.
  - destruct sub; [|discriminate]; destruct b; reflexivity.
  - change (String c a ++ b) with (String c (a ++ b)); cbn [contains] in H |- *.
    apply orb_true_iff in H as [H|H].
    + pose proof (prefix_app_l _ (String c a) b H) as Hp.
      change (String c a ++ b) with (String c (a ++ b)) in Hp; rewrite Hp; reflexivity.
    + rewrite (IH H), orb_true_r; reflexivity.
Qed.

Lemma substring_app_skip (a b : string) (m : nat) :
  substring (String.length a) m (a ++ b) = substring 0 m b.
Proof. induction a as [|c a IH]; simpl; [reflexivity|exact IH]. Qed.

Lemma substring_all (b : string) (m : nat) :
  (String.length b <= m)%nat -> substring 0 m b = b.
Proof.
  revert m; induction b as [|c b IH]; intros m Hm; destruct m; simpl in *;
    try reflexivity; [lia|rewrite IH by lia; reflexivity].
Qed.

Lemma replace_fuel_digits (o : ascii) (old' new : string) (f : nat) (d : string) :
  is_digit o = false -> sforall is_digit d = true ->
  replace_fuel f (String o old') new d = d.
Proof.
  intros Ho; revert f; induction d as [|c d IH]; intros f Hd; destruct f;
    simpl; try reflexivity.
  apply andb_true_iff in Hd as [H1 H2].
  destruct (ascii_dec o c); [subst; congruence|rewrite IH by exact H2; reflexivity].
Qed.

Lemma replace_fuel_cons (f : nat) (old new : string) (c : ascii) (r : string) :
  replace_fuel (S f) old new (String c r) =
  if String.prefix old (String c r)
  then new ++ replace_fuel f old new
                (substring (String.length old) (String.length (String c r)) (String c r))
  else String c (replace_fuel f old new r).
Proof. reflexivity. Qed.

(** Replacing a leading [old] in front of digits leaves the digits. *)
Lemma replace_head (o : ascii) (old' new d : string) :
  is_digit o = false -> sforall is_digit d = true ->
  replace (String o old') new (String o old' ++ d) = new ++ d.
Proof.
  intros Ho Hd; unfold replace.
  change (String o old' ++ d) with (String o (old' ++ d)).
  change (String.length (String o (old' ++ d))) with (S (String.length (old' ++ d))).
  rewrite replace_fuel_cons.
  change (String o (old' ++ d)) with (String o old' ++ d).
  rewrite prefix_app, substring_app_skip, substring_all
    by (rewrite length_app; lia).
  rewrite (replace_fuel_digits o old' new _ d Ho Hd); reflexivity.
Qed.

Lemma split_cons (c : ascii) (s : string) : exists p ps, split c s = p :: ps.
Proof.
  induction s as [|x s [p [ps IH]]]; simpl; [eexists; eexists; reflexivity|].
  rewrite IH; destruct (Ascii.eqb x c); eexists; eexists; reflexivity.
Qed.

Lemma split_app (c : ascii) (a b p : string) (ps : list string) :
  sforall (fun x => negb (Ascii.eqb x c)) a = true ->
  split c b = p :: ps -> split c (a ++ b) = (a ++ p) :: ps.
Proof.
  intros Ha Hb; induction a as [|x a IH]; simpl; [exact Hb|].
  simpl in Ha; apply andb_true_iff in Ha as [H1 H2].
  rewrite (IH H2); destruct (Ascii.eqb x c); [discriminate|reflexivity].
Qed.

Lemma split_no_sep (c : ascii) (s : string) :
  sforall (fun x => negb (Ascii.eqb x c)) s = true -> split c s = [s].
Proof.
  intros H; rewrite <- (append_nil_r s) at 1.
  rewrite (split_app c s "" "" [] H eq_refl), append_nil_r; reflexivity.
Qed.

Lemma rstrip_empty_spaces (s : string) : rstrip s = "" -> sforall is_space s = true.
Proof.
  induction s as [|c r IH]; simpl; [reflexivity|].
  destruct (String.eqb (rstrip r) "" && is_space c) eqn:E; [|discriminate].
  intros _; apply andb_true_iff in E as [E1 E2].
  rewrite E2, IH; [reflexivity|apply String.eqb_eq; exact E1].
Qed.

Lemma lstrip_spaces (s : string) :
  sforall is_space (lstrip s) = true -> sforall is_space s = true.
Proof.
  induction s as [|c r IH]; [reflexivity|]; intros H; simpl in H |- *.
  destruct (is_space c) eqn:E; simpl; [exact (IH H)|simpl in H; rewrite E in H; discriminate].
Qed.

Lemma strip_empty_spaces (s : string) : strip s = "" -> sforall is_space s = true.
Proof. intros H; apply lstrip_spaces, rstrip_empty_spaces, H. Qed.

Lemma lower_spaces (s : string) : sforall is_space s = true -> lower s = s.
Proof.
  induction s as [|c s IH]; simpl; [reflexivity|]; intros H.
  apply andb_true_iff in H as [H1 H2]; unfold lower in *; simpl.
  rewrite (space_char_facts c H1), (IH H2); reflexivity.
Qed.

Lemma contains_spaces (c : ascii) (sub s : string) :
  is_space c = false -> sforall is_space s = true -> contains (String c sub) s = false.
Proof.
  intros Hc; induction s as [|x s IH]; simpl; [reflexivity|]; intros H.
  apply andb_true_iff in H as [H1 H2]; rewrite (IH H2), orb_false_r.
  destruct (ascii_dec c x); [subst; congruence|reflexivity].
Qed.

End CellFacts.

Module BookedCellFacts.
Import Py DjCore Manager DigitFacts CellFacts.

Section Digits.
Variable d : string.
Hypothesis Hd : sforall is_digit d = true.
Hypothesis Hne : d <> "".

Lemma no_sep_digits (c : ascii) : is_digit c = false ->
  sforall (fun x => negb (Ascii.eqb x c)) d = true.
Proof.
  intros Hc; apply (sforall_impl is_digit); [|exact Hd].
  intros x Hx; destruct (Ascii.eqb_spec x c); [subst; congruence|reflexivity].
Qed.

Lemma lower_bx : lower ("BOOKED x " ++ d) = "booked x " ++ d.
Proof. unfold lower; rewrite smap_app; fold (lower d); rewrite (lower_digits d Hd); reflexivity. Qed.

Lemma upper_bx : upper ("BOOKED x " ++ d) = "BOOKED X " ++ d.
Proof. unfold upper; rewrite smap_app; fold (upper d); rewrite (upper_digits d Hd); reflexivity. Qed.

Lemma strip_bx : strip ("BOOKED x " ++ d) = "BOOKED x " ++ d.
Proof. exact (strip_head_digits "B" "OOKED x " d eq_refl Hd Hne). Qed.

Lemma strip_BX : strip ("BOOKED X " ++ d) = "BOOKED X " ++ d.
Proof. exact (strip_head_digits "B" "OOKED X " d eq_refl Hd Hne). Qed.

Lemma replace_BX : replace "BOOKED X " "" ("BOOKED X " ++ d) = d.
Proof. exact (replace_head "B" "OOKED X " "" d eq_refl Hd). Qed.

Lemma split_comma_bx : split "," ("BOOKED x " ++ d) = ["BOOKED x " ++ d].
Proof. apply split_no_sep; rewrite sforall_app, (no_sep_digits "," eq_refl); reflexivity. Qed.

Lemma rstrip_d_aag : rstrip (d ++ ", AAG") = d ++ ", AAG".
Proof. apply rstrip_app; [reflexivity|discriminate]. Qed.

Lemma strip_bxa : strip ("BOOKED x " ++ d ++ ", AAG") = "BOOKED x " ++ d ++ ", AAG".
Proof.
  unfold strip; change (lstrip ("BOOKED x " ++ d ++ ", AAG")) with ("BOOKED x " ++ d ++ ", AAG").
  apply rstrip_app; [exact rstrip_d_aag|destruct d; [contradiction|discriminate]].
Qed.

Lemma split_comma_bxa :
  split "," ("BOOKED x " ++ d ++ ", AAG") = ["BOOKED x " ++ d; " AAG"].
Proof.
  rewrite append_assoc'.
  rewrite (split_app "," ("BOOKED x " ++ d) ", AAG" "" [" AAG"]).
  - rewrite append_nil_r; reflexivity.
  - rewrite sforall_app, (no_sep_digits "," eq_refl); reflexivity.
  - reflexivity.
Qed.

Lemma split_x_bx : split "x" ("booked x " ++ d) = ["booked "; " " ++ d].
Proof.
  assert (E1 : split "x" (" " ++ d) = [" " ++ d]).
  { apply split_no_sep; simpl; exact (no_sep_digits "x" eq_refl). }
  assert (E2 : split "x" ("x " ++ d) = "" :: [" " ++ d]).
  { change ("x " ++ d) with (String "x" (" " ++ d)); cbn [split]; rewrite E1; reflexivity. }
  change ("booked x " ++ d) with ("booked " ++ ("x " ++ d)).
  rewrite (split_app "x" "booked " ("x " ++ d) "" [" " ++ d] eq_refl E2); reflexivity.
Qed.

Lemma strip_space_digits : strip (" " ++ d) = d.
Proof.
  unfold strip; change (lstrip (" " ++ d)) with (lstrip d).
  destruct d as [|c r] eqn:E; [contradiction|].
  destruct (sforall_digit_char _ c r eq_refl Hd) as [Hc _].
  destruct (digit_char_facts c Hc) as (Hs & _).
  simpl lstrip; rewrite Hs; apply rstrip_digits; exact Hd.
Qed.

Variable m : Z.
Hypothesis Hint : int d = Some m.

Ltac red_ifs := cbv beta iota zeta delta [negb orb andb].

Lemma count_bx : count_booked_events ("BOOKED x " ++ d) = m.
Proof.
  unfold count_booked_events; rewrite strip_bx.
  change (String.eqb ("BOOKED x " ++ d) "") with false; red_ifs.
  rewrite upper_bx, strip_BX.
  change (String.eqb ("BOOKED X " ++ d) "BOOKED") with false.
  rewrite prefix_app; red_ifs; rewrite replace_BX, Hint; reflexivity.
Qed.

Lemma increment_booked_bx :
  increment_booked ("BOOKED x " ++ d) = "BOOKED x " ++ str (m + 1).
Proof.
  unfold increment_booked; rewrite strip_bx.
  change (String.eqb ("BOOKED x " ++ d) "") with false; red_ifs.
  rewrite upper_bx, strip_BX.
  change (String.eqb ("BOOKED X " ++ d) "BOOKED") with false.
  rewrite prefix_app; red_ifs; rewrite replace_BX, Hint; reflexivity.
Qed.

Lemma tba_entry_bx : tba_entry_count ("BOOKED x " ++ d) = m.
Proof.
  unfold tba_entry_count; red_ifs; rewrite lower_bx.
  rewrite (contains_app_l "booked" "booked x " d eq_refl).
  rewrite (contains_app_l "x" "booked x " d eq_refl); red_ifs.
  rewrite split_x_bx; cbn [nth_error]; rewrite strip_space_digits, Hint; reflexivity.
Qed.

Lemma parse_bx : parse_tba_value ("BOOKED x " ++ d) = m.
Proof.
  unfold parse_tba_value; red_ifs; rewrite lower_bx.
  rewrite (contains_app_l "booked" "booked x " d eq_refl); red_ifs.
  rewrite split_comma_bx; cbn [map fold_left]; rewrite strip_bx, tba_entry_bx.
  reflexivity.
Qed.

Lemma lower_bxa : lower ("BOOKED x " ++ d ++ ", AAG") = "booked x " ++ d ++ ", aag".
Proof.
  unfold lower; rewrite !smap_app; fold (lower d); rewrite (lower_digits d Hd); reflexivity.
Qed.

Lemma parse_bxa : parse_tba_value ("BOOKED x " ++ d ++ ", AAG") = (m + 1)%Z.
Proof.
  unfold parse_tba_value; red_ifs; rewrite lower_bxa.
  rewrite (contains_app_l "booked" "booked x " (d ++ ", aag") eq_refl); red_ifs.
  rewrite split_comma_bxa; cbn [map fold_left]; rewrite strip_bx, tba_entry_bx.
  change (strip " AAG") with "AAG"; change (tba_entry_count "AAG") with 1%Z.
  reflexivity.
Qed.

Lemma increment_tba_bx :
  increment_tba ("BOOKED x " ++ d) = "BOOKED x " ++ str (m + 1).
Proof.
  unfold increment_tba; rewrite strip_bx.
  change (String.eqb ("BOOKED x " ++ d) "") with false; red_ifs.
  rewrite split_comma_bx; cbn [map filter]; rewrite strip_bx, upper_bx.
  change (String.eqb ("BOOKED X " ++ d) "AAG") with false; red_ifs.
  rewrite upper_bx.
  change (String.eqb ("BOOKED X " ++ d) "BOOKED") with false.
  rewrite prefix_app; red_ifs; rewrite replace_BX, Hint; reflexivity.
Qed.

Lemma increment_tba_bxa :
  increment_tba ("BOOKED x " ++ d ++ ", AAG") = "BOOKED x " ++ str (m + 1) ++ ", AAG".
Proof.
  unfold increment_tba; rewrite strip_bxa.
  change (String.eqb ("BOOKED x " ++ d ++ ", AAG") "") with false; red_ifs.
  rewrite split_comma_bxa; cbn [map filter]; rewrite strip_bx, upper_bx.
  change (strip " AAG") with "AAG"; change (upper "AAG") with "AAG".
  change (String.eqb ("BOOKED X " ++ d) "AAG") with false.
  change (String.eqb "AAG" "AAG") with true; red_ifs.
  rewrite upper_bx.
  change (String.eqb ("BOOKED X " ++ d) "BOOKED") with false.
  rewrite prefix_app; red_ifs; rewrite replace_BX, Hint.
  change (join ", " ["AAG"]) with "AAG".
  rewrite <- append_assoc'; reflexivity.
Qed.

End Digits.
End BookedCellFacts.

Module RoundTrip.
Import Py DjCore Manager DigitFacts CellFacts BookedCellFacts.

Lemma blank_cell_counts (x : string) : strip x = "" ->
  parse_tba_value x = 0%Z /\ count_booked_events x = 0%Z /\
  increment_tba x = "BOOKED" /\ increment_booked x = "BOOKED".
Proof.
  intros H; pose proof (strip_empty_spaces x H) as Hs.
  split; [|unfold count_booked_events, increment_tba, increment_booked; rewrite H;
           repeat split].
  unfold parse_tba_value; cbv zeta; rewrite (lower_spaces x Hs).
  rewrite (contains_spaces "b" "ooked" x eq_refl Hs), (contains_spaces "a" "ag" x eq_refl Hs).
  reflexivity.
Qed.

(** Claim C6: incrementing a well-formed cell adds one booking.  For a
    TBA cell (blank, BOOKED or BOOKED x N with N >= 1, each optionally
    with an AAG part) [parse_tba_value (increment_tba x)] is
    [parse_tba_value x + 1]; for a DJ cell (blank, BOOKED or BOOKED x N)
    [count_booked_events (increment_booked x)] is
    [count_booked_events x + 1]. *)
Theorem increment_round_trip :
  (forall x, tba_cell x -> parse_tba_value (increment_tba x) = (parse_tba_value x + 1)%Z) /\
  (forall x, booked_cell x ->
     count_booked_events (increment_booked x) = (count_booked_events x + 1)%Z).
Proof.
  split.
  - intros x Hx; destruct Hx as [x Hb| | |n Hn].
    + destruct Hb as [x Hs| |n Hn].
      * destruct (blank_cell_counts x Hs) as (Hp & _ & Hi & _); rewrite Hi, Hp; reflexivity.
      * vm_compute; reflexivity.
      * destruct (str_digits n ltac:(lia)) as (Hne & Hd & Hi).
        destruct (str_digits (n + 1) ltac:(lia)) as (Hne' & Hd' & Hi').
        rewrite (increment_tba_bx _ Hd Hne n Hi), (parse_bx _ Hd' Hne' _ Hi'),
          (parse_bx _ Hd Hne n Hi); reflexivity.
    + vm_compute; reflexivity.
    + vm_compute; reflexivity.
    + destruct (str_digits n ltac:(lia)) as (Hne & Hd & Hi).
      destruct (str_digits (n + 1) ltac:(lia)) as (Hne' & Hd' & Hi').
      rewrite (increment_tba_bxa _ Hd Hne n Hi), (parse_bxa _ Hd' Hne' _ Hi'),
        (parse_bxa _ Hd Hne n Hi); reflexivity.
  - intros x Hx; destruct Hx as [x Hs| |n Hn].
    + destruct (blank_cell_counts x Hs) as (_ & Hc & _ & Hi); rewrite Hi, Hc; reflexivity.
    + vm_compute; reflexivity.
    + destruct (str_digits n ltac:(lia)) as (Hne & Hd & Hi).
      destruct (str_digits (n + 1) ltac:(lia)) as (Hne' & Hd' & Hi').
      rewrite (increment_booked_bx _ Hd Hne n Hi), (count_bx _ Hd' Hne' _ Hi'),
        (count_bx _ Hd Hne n Hi); reflexivity.
Qed.

(** Witness of claim C6: the TBA cell ["BOOKED x 2, AAG"] and the DJ cell
    ["BOOKED x 2"]. *)
Lemma increment_round_trip_witness :
  tba_cell "BOOKED x 2, AAG" /\
  parse_tba_value (increment_tba "BOOKED x 2, AAG") = (parse_tba_value "BOOKED x 2, AAG" + 1)%Z /\
  booked_cell "BOOKED x 2" /\
  count_booked_events (increment_booked "BOOKED x 2") = (count_booked_events "BOOKED x 2" + 1)%Z.
Proof.
  assert (Ht : tba_cell "BOOKED x 2, AAG")
    by (change "BOOKED x 2, AAG" with ("BOOKED x " ++ str 2 ++ ", AAG");
        apply tc_multiple_aag; lia).
  assert (Hb : booked_cell "BOOKED x 2")
    by (change "BOOKED x 2" with ("BOOKED x " ++ str 2); apply bc_multiple; lia).
  exact (conj Ht (conj (proj1 increment_round_trip _ Ht)
                       (conj Hb (proj2 increment_round_trip _ Hb)))).
Defined.

End RoundTrip.

(* ================================================================== *)
(** * Booking write protocol: the validation halt *)
(* ================================================================== *)

Module ProtocolFacts.
Import Py Manager Protocol Fixtures.

(** Counterexample to claim C2: when the date row is missing, a
    non-dry run inserts the row and writes the date and the formula
    templates before the count mismatch halts it. *)
Lemma validation_halt_counterexample :
  run (sample_env None) false sample_booking
  = (false, [InsertRow 230; WriteCell 230 1 "Sat 11/21";
             WriteFormula 230 2 "B"; WriteFormula 230 3 "C"; WriteFormula 230 5 "E";
             WriteFormula 230 7 "G"; WriteFormula 230 8 "H"]%nat).
Proof. vm_compute; reflexivity. Qed.

(** Claim C2 (amended): for a booking assigned to a DJ of a configured
    year, when the DJ's booking count in the matrix cell differs from the
    number of the DJ's calendar events that day, [run] returns [false]
    without writing any matrix cell of a DJ, TBA or backup and without
    creating a calendar event.  Its only store actions are those of
    [create_date_row] (insert the row, write the date and the formula
    templates), performed only when the date row is missing outside a
    dry run. *)
Theorem validation_mismatch_halts (en : env) (dry_run : bool) (b : booking)
    (col_map : list (string * nat)) (row_num : nat) :
  COLUMN_MAPS (b_year b) = Some col_map ->
  b_is_unassigned b = false ->
  row_num = match e_find_date_row en with
            | Some r => r
            | None => if dry_run then 999%nat else e_insert_point en
            end ->
  count_booked_events
    (get (b_dj_short_name b)
         (if dry_run && Nat.eqb row_num 999 then [] else e_row_data en row_num))
  <> Z.of_nat (length (e_calendar en (b_dj_initials_bracket b))) ->
  run en dry_run b
  = (false, match e_find_date_row en with
            | None => if dry_run then [] else row_creation_effects (e_insert_point en) b
            | Some _ => []
            end).
Proof.
  intros Hcm Hu -> Hmis.
  apply Z.eqb_neq in Hmis.
  unfold run, run_m; rewrite Hcm.
  destruct (e_find_date_row en) as [r|]; destruct dry_run;
    cbv beta iota zeta delta [bind ret exit emit when create_date_row fold_left
                              ROW_FORMULA_COLUMNS negb] in Hmis |- *;
    rewrite Hu; destruct (col_lookup (b_dj_short_name b) col_map);
    try reflexivity; rewrite Hmis; reflexivity.
Qed.

(** Witness of claim C2: Paul's cell is blank in the found row 7 but one
    calendar event exists; the run stops with no store action. *)
Lemma validation_mismatch_halts_witness :
  run (sample_env (Some 7%nat)) false sample_booking = (false, []).
Proof.
  refine (validation_mismatch_halts (sample_env (Some 7%nat)) false sample_booking
            _ 7%nat eq_refl eq_refl eq_refl _).
  vm_compute; discriminate.
Defined.

End ProtocolFacts.

(* ================================================================== *)
(** * Booking write protocol: dry runs, unassigned bookings, backups *)
(* ================================================================== *)

Module ProtocolRuns.
Import Py Manager Protocol Fixtures.

Lemma backup_candidates_spec (en : env) (dry_run : bool) (b : booking)
    (col_map : list (string * nat)) (row_data : list (string * string))
    (p : string * option string) :
  In p (backup_candidates en dry_run b col_map row_data) ->
  fst p <> b_dj_short_name b /\ exists c, col_lookup (fst p) col_map = Some c.
Proof.
  unfold backup_candidates.
  cut (forall l acc,
         (In p acc -> fst p <> b_dj_short_name b /\
                      exists c, col_lookup (fst p) col_map = Some c) ->
         In p (fold_left (fun acc dj =>
           if String.eqb dj (b_dj_short_name b) then acc else
           match col_lookup dj col_map with
           | None => acc
           | Some col =>
               let cell_val := get dj row_data in
               let bold := if String.eqb dj "Woody" && String.eqb (upper (strip cell_val)) "OUT"
                              && negb dry_run then e_is_bold en col else false in
               let (eligible, note) := can_backup dj cell_val bold (b_weekday b) (b_year b) in
               if eligible then app acc [(dj, note)] else acc
           end) l acc) ->
         fst p <> b_dj_short_name b /\ exists c, col_lookup (fst p) col_map = Some c).
  { intros H; apply H; intros []. }
  induction l as [|dj l IH]; intros acc Hacc; [exact Hacc|].
  cbn [fold_left]; apply IH; intro Hin.
  destruct (String.eqb_spec dj (b_dj_short_name b)); [auto|].
  destruct (col_lookup dj col_map) as [col|] eqn:Ec; [|auto].
  destruct (can_backup _ _ _ _ _) as [[] note]; [|auto].
  apply in_app_or in Hin; destruct Hin as [Hin|[<-|[]]]; [auto|].
  simpl; split; [exact n | exists col; exact Ec].
Qed.

(** A dry run performs no store action: it writes no matrix cell,
    inserts no row and creates no calendar event, whatever the sheet,
    the calendar and the booking hold. *)
Theorem dry_run_no_effects (en : env) (b : booking) : snd (run en true b) = [].
Proof.
  unfold run, run_m.
  destruct (COLUMN_MAPS (b_year b)) as [cm|]; [|reflexivity].
  cbv beta iota zeta delta [bind ret exit emit when negb andb].
  repeat atomic_destruct; reflexivity.
Qed.

(** A backup DJ's all-day event is created only by a non-dry run of an
    assigned booking, for a DJ other than the booked one, whose calendar
    showed no event that day, and after the run wrote ["BACKUP"] into
    that DJ's column of the date row. *)
Theorem backup_event_checked (en : env) (dry_run : bool) (b : booking) (d : string) :
  In (CreateAllDayEvent d) (snd (run en dry_run b)) ->
  dry_run = false /\ b_is_unassigned b = false /\ d <> b_dj_short_name b /\
  e_calendar en ("[" ++ get_dj_initials d ++ "]") = [] /\
  exists c, col_lookup d (column_map_or_2026 (b_year b)) = Some c /\
            In (WriteCell (date_row en) c "BACKUP") (snd (run en dry_run b)).
Proof.
  unfold run, run_m, column_map_or_2026, date_row.
  destruct (COLUMN_MAPS (b_year b)) as [cm|]; [|intros []].
  cbv beta iota zeta delta [bind ret exit emit when negb andb option_map
    create_date_row fold_left ROW_FORMULA_COLUMNS].
  repeat atomic_destruct; intro H; simpl in H;
    repeat match goal with H : _ \/ _ |- _ => destruct H as [H|H] end;
    try discriminate; try contradiction.
  all: try (injection H as <-).
  all: match goal with E : nth_error _ _ = Some _ |- _ =>
         apply nth_error_In, backup_candidates_spec in E; destruct E as [Hne _] end.
  all: repeat split; auto.
  all: eexists; split; [eassumption|simpl; tauto].
Qed.

(** Witness: with a blank 2026 row and an empty calendar, the operator's
    first candidate for Paul's booking is Henry. *)
Lemma backup_event_checked_witness :
  In (CreateAllDayEvent "Henry") (snd (run backup_env false sample_booking)) /\
  "Henry" <> b_dj_short_name sample_booking.
Proof.
  assert (H : In (CreateAllDayEvent "Henry") (snd (run backup_env false sample_booking)))
    by (vm_compute; tauto).
  split; [exact H|].
  exact (proj1 (proj2 (proj2 (backup_event_checked backup_env false sample_booking "Henry" H)))).
Defined.

Lemma column_map_tba (year : Z) (cm : list (string * nat)) :
  COLUMN_MAPS year = Some cm -> col_lookup "TBA" cm = Some 9%nat.
Proof.
  unfold COLUMN_MAPS;
    repeat match goal with |- context [if ?c then _ else _] => destruct c end;
    intros H; try discriminate; injection H as <-; reflexivity.
Qed.

(** An unassigned booking of a configured year, outside a dry run,
    writes only the TBA column (column 9 in every year) of the date
    row, with [increment_tba] of the cell read, then creates the primary
    event when the booking has times, and succeeds.  It writes no DJ
    column and creates no backup. *)
Theorem unassigned_run (en : env) (b : booking) (cm : list (string * nat)) :
  COLUMN_MAPS (b_year b) = Some cm -> b_is_unassigned b = true ->
  run en false b
  = (true, app (creation_effects en b)
           (WriteCell (date_row en) 9 (increment_tba (get "TBA" (e_row_data en (date_row en))))
            :: (if b_has_times b then [CreateTimedEvent (event_title b)] else []))).
Proof.
  intros Hcm Hu.
  unfold run, run_m, creation_effects, date_row, event_title; rewrite Hcm.
  cbv beta iota zeta delta [bind ret exit emit when negb andb option_map
    create_date_row fold_left ROW_FORMULA_COLUMNS].
  rewrite Hu, (column_map_tba _ _ Hcm).
  destruct (e_find_date_row en); destruct (b_has_times b); destruct (b_has_planner b);
    reflexivity.
Qed.

(** Witness: an unassigned 2026 booking on the blank row 7. *)
Lemma unassigned_run_witness :
  run (sample_env (Some 7%nat)) false unassigned_booking
  = (true, [WriteCell 7 9 "BOOKED"; CreateTimedEvent " Client"]).
Proof.
  rewrite (unassigned_run (sample_env (Some 7%nat)) unassigned_booking _ eq_refl eq_refl).
  vm_compute; reflexivity.
Defined.

(** For an assigned booking whose matrix count equals its calendar
    count, a non-dry run goes on when the count is zero or the operator
    approves another booking: its first write after any row creation is
    the DJ's cell of the date row, ["BOOKED"] on a count of zero and
    [increment_booked] of the cell otherwise, and the run succeeds. *)
Theorem assigned_run_writes_first (en : env) (b : booking) (cm : list (string * nat)) (col : nat) :
  COLUMN_MAPS (b_year b) = Some cm -> b_is_unassigned b = false ->
  col_lookup (b_dj_short_name b) cm = Some col ->
  count_booked_events (get (b_dj_short_name b) (e_row_data en (date_row en)))
    = Z.of_nat (length (e_calendar en (b_dj_initials_bracket b))) ->
  (count_booked_events (get (b_dj_short_name b) (e_row_data en (date_row en))) = 0%Z
   \/ e_approve_multiple en = true) ->
  exists rest,
  run en false b
  = (true, app (creation_effects en b)
           (WriteCell (date_row en) col
                (if (count_booked_events (get (b_dj_short_name b) (e_row_data en (date_row en)))
                     =? 0)%Z
                 then "BOOKED"
                 else increment_booked (get (b_dj_short_name b) (e_row_data en (date_row en))))
           :: rest)).
Proof.
  intros Hcm Hu Hcol Hcount Hok.
  unfold run, run_m, creation_effects, date_row in *; rewrite Hcm.
  cbv beta iota zeta delta [bind ret exit emit when negb andb option_map
    create_date_row fold_left ROW_FORMULA_COLUMNS]; rewrite Hu, Hcol.
  destruct (e_find_date_row en) as [r|]; cbv beta iota in *; rewrite Hcount, Z.eqb_refl;
    destruct (length (e_calendar en (b_dj_initials_bracket b))) as [|k];
    cbn [Z.of_nat Z.ltb Z.compare Z.eqb];
    (destruct Hok as [Hok|Hok]; [rewrite Hcount in Hok; try discriminate|try rewrite Hok]);
    repeat atomic_destruct;
    try (eexists; reflexivity);
    match goal with E : nth_error _ _ = Some _ |- _ =>
      apply nth_error_In, backup_candidates_spec in E;
      destruct E as [_ [c Ec]]; congruence end.
Qed.

(** Witness: Paul's first booking on the blank row 7 writes [BOOKED]
    into Paul's column 6. *)
Lemma assigned_run_writes_first_witness :
  exists rest, run backup_env false sample_booking = (true, WriteCell 7 6 "BOOKED" :: rest).
Proof.
  exact (assigned_run_writes_first backup_env sample_booking _ 6 eq_refl eq_refl eq_refl
           eq_refl (or_introl eq_refl)).
Defined.

(** When the DJ already has bookings, the counts agree and the operator
    declines another booking, a non-dry run returns [false] after at
    most creating the date row: it writes no cell and creates no event. *)
Theorem declined_multiple_halts (en : env) (b : booking) (cm : list (string * nat)) (col : nat) :
  COLUMN_MAPS (b_year b) = Some cm -> b_is_unassigned b = false ->
  col_lookup (b_dj_short_name b) cm = Some col ->
  count_booked_events (get (b_dj_short_name b) (e_row_data en (date_row en)))
    = Z.of_nat (length (e_calendar en (b_dj_initials_bracket b))) ->
  (0 < count_booked_events (get (b_dj_short_name b) (e_row_data en (date_row en))))%Z ->
  e_approve_multiple en = false ->
  run en false b = (false, creation_effects en b).
Proof.
  intros Hcm Hu Hcol Hcount Hpos Hno.
  apply Z.ltb_lt in Hpos.
  unfold run, run_m, creation_effects, date_row in *; rewrite Hcm.
  cbv beta iota zeta delta [bind ret exit emit when negb andb option_map
    create_date_row fold_left ROW_FORMULA_COLUMNS]; rewrite Hu, Hcol.
  destruct (e_find_date_row en) as [r|]; cbv beta iota in *;
    rewrite Hcount, Z.eqb_refl; rewrite Hcount in Hpos; rewrite Hpos, Hno; reflexivity.
Qed.

(** Witness: Paul is booked once and the operator declines. *)
Lemma declined_multiple_halts_witness :
  run declining_env false sample_booking = (false, []).
Proof.
  exact (declined_multiple_halts declining_env sample_booking _ 6 eq_refl eq_refl eq_refl
           eq_refl eq_refl eq_refl).
Defined.
End ProtocolRuns.

(* ================================================================== *)
(** * Backup lookup, backup notes and the availability summary *)
(* ================================================================== *)

Module SummaryFacts.
Import Py DjCore Manager StringFacts Fixtures.

Lemma find_first {A} (f : A -> bool) (l : list A) (x : A) :
  find f l = Some x ->
  exists pre post, l = app pre (x :: post) /\ f x = true /\ forall y, In y pre -> f y = false.
Proof.
  induction l as [|a l IH]; simpl; [discriminate|].
  destruct (f a) eqn:Ea.
  - intros H; injection H as <-; exists [], l; repeat split; auto; intros y [].
  - intros H; destruct (IH H) as (pre & post & -> & Hx & Hpre).
    exists (a :: pre), post; repeat split; auto.
    intros y [<-|Hy]; auto.
Qed.

Lemma find_none {A} (f : A -> bool) (l : list A) :
  find f l = None <-> forall y, In y l -> f y = false.
Proof.
  induction l as [|a l IH]; simpl; [split; [intros _ y []|reflexivity]|].
  destruct (f a) eqn:Ea; split.
  - discriminate.
  - intros H; rewrite (H a (or_introl eq_refl)) in Ea; discriminate.
  - intros H y [<-|Hy]; [exact Ea|apply IH; auto].
  - intros H; apply IH; auto.
Qed.

(** [check_existing_backup] returns the first of Henry, Woody, Paul,
    Stefano, Felipe and Stephanie (in that order) whose cell, stripped
    and upper-cased, is ["BACKUP"]; it returns [None] exactly when none
    of the six cells is. *)
Theorem check_existing_backup_spec (row_data : list (string * string)) :
  (forall dj, check_existing_backup row_data = Some dj ->
     exists pre post,
       ["Henry"; "Woody"; "Paul"; "Stefano"; "Felipe"; "Stephanie"] = app pre (dj :: post) /\
       cell_norm dj row_data = "BACKUP" /\
       forall d, In d pre -> cell_norm d row_data <> "BACKUP") /\
  (check_existing_backup row_data = None <->
     forall d, In d ["Henry"; "Woody"; "Paul"; "Stefano"; "Felipe"; "Stephanie"] ->
               cell_norm d row_data <> "BACKUP").
Proof.
  split.
  - intros dj H; destruct (find_first _ _ _ H) as (pre & post & Hl & Hx & Hpre).
    exists pre, post; split; [exact Hl|split].
    + apply String.eqb_eq; exact Hx.
    + intros d Hd; apply String.eqb_neq, Hpre, Hd.
  - unfold check_existing_backup; rewrite find_none; split; intros H d Hd.
    + apply String.eqb_neq, H, Hd.
    + apply String.eqb_neq, H, Hd.
Qed.

(** [can_backup] returns a note only for Stefano with a blank cell: the
    note is ["check with Stefano"] and Stefano is eligible. *)
Theorem can_backup_note (dj_name cell_value : string) (is_bold : bool) (weekday : nat)
    (year : Z) (note : string) :
  snd (can_backup dj_name cell_value is_bold weekday year) = Some note ->
  dj_name = "Stefano" /\ strip cell_value = "" /\ note = "check with Stefano" /\
  fst (can_backup dj_name cell_value is_bold weekday year) = true.
Proof.
  unfold can_backup; cbv zeta.
  repeat match goal with |- context [if ?c then _ else _] => destruct c eqn:? end;
    simpl; intro H; try discriminate; injection H as <-.
  repeat match goal with H : String.eqb _ _ = true |- _ => apply String.eqb_eq in H end.
  subst dj_name; repeat split.
  match goal with H : upper (strip cell_value) = "" |- _ =>
    apply String.eqb_eq; rewrite <- upper_empty, H; reflexivity end.
Qed.

(** Witness: Stefano on an empty Saturday cell of 2026. *)
Lemma can_backup_note_witness :
  snd (can_backup "Stefano" "" false 5 2026) = Some "check with Stefano" /\
  fst (can_backup "Stefano" "" false 5 2026) = true.
Proof.
  split; [reflexivity|].
  exact (proj2 (proj2 (proj2 (can_backup_note "Stefano" "" false 5 2026 "check with Stefano" eq_refl)))).
Defined.

Lemma first_pass_lists (row : list (string * string)) (c : counts) :
  available_for_booking (fold_left first_pass_step row c) = available_for_booking c /\
  available_for_backup (fold_left first_pass_step row c) = available_for_backup c.
Proof.
  revert c; induction row as [|[name value] row IH]; intros c; [split; reflexivity|].
  cbn [fold_left]; rewrite (proj1 (IH _)), (proj2 (IH _)).
  unfold first_pass_step; cbv zeta.
  repeat match goal with |- context [if ?b then _ else _] => destruct b end;
    try (split; reflexivity).
  generalize (map strip (split "," (replace " (BOLD)" "" value))) as es.
  induction es as [|e es IHe] in c |- *; [split; reflexivity|].
  cbn [fold_left]; exact (IHe (add_tba _ c)).
Qed.

Lemma second_pass_lists (date_obj : option nat) (year : option string)
    (row pre : list (string * string)) (c : counts) :
  (forall n, In n (available_for_booking c) \/ In n (available_for_backup c) ->
             In n (map fst pre) /\ ~ In n ["Date"; "TBA"; "AAG"; "Stephanie"]) ->
  forall n, In n (available_for_booking (fold_left (second_pass_step date_obj year) row c))
            \/ In n (available_for_backup (fold_left (second_pass_step date_obj year) row c)) ->
  In n (map fst (app pre row)) /\ ~ In n ["Date"; "TBA"; "AAG"; "Stephanie"].
Proof.
  revert pre c; induction row as [|[name value] row IH]; intros pre c Hc.
  - rewrite app_nil_r; exact Hc.
  - cbn [fold_left]; replace (app pre ((name, value) :: row)) with (app (app pre [(name, value)]) row)
      by (rewrite <- app_assoc; reflexivity).
    apply IH; intros n Hn.
    rewrite map_app, in_app_iff.
    unfold second_pass_step in Hn; cbv zeta in Hn.
    destruct (mem name ["Date"; "TBA"; "AAG"; "Stephanie"]) eqn:Em;
      [destruct (Hc n Hn); auto|].
    destruct (String.eqb (lower (replace " (BOLD)" "" value)) "backup");
      [destruct (Hc n Hn); auto|].
    destruct (negb _); [|destruct (Hc n Hn); auto].
    destruct (check_dj_availability _ _ _ _ _) as [cb cu].
    unfold add_available in Hn; simpl in Hn.
    assert (Hname : n = name -> ~ In n ["Date"; "TBA"; "AAG"; "Stephanie"]).
    { intros -> Hin.
      assert (E : mem name ["Date"; "TBA"; "AAG"; "Stephanie"] = true)
        by (apply existsb_exists; exists name; split; [exact Hin|apply String.eqb_refl]).
      congruence. }
    destruct cb, cu; rewrite ?in_app_iff in Hn; simpl in Hn;
      repeat match goal with H : _ \/ _ |- _ => destruct H as [H|H] end;
      try contradiction;
      first [ subst n; split; [right; simpl; auto|apply Hname; reflexivity]
            | destruct (Hc n); auto ].
Qed.

(** Every name [analyze_availability] lists as available for booking
    or for backup is a name of the row, and never Date, TBA, AAG or
    Stephanie, which the second loop skips. *)
Theorem analyze_available_names (selected_data : list (string * string))
    (date_obj : option nat) (year : option string) (n : string) :
  In n (s_available_booking (analyze_availability selected_data date_obj year)) \/
  In n (s_available_backup (analyze_availability selected_data date_obj year)) ->
  In n (map fst selected_data) /\ ~ In n ["Date"; "TBA"; "AAG"; "Stephanie"].
Proof.
  unfold analyze_availability; cbv zeta; simpl.
  apply (second_pass_lists date_obj year selected_data []).
  rewrite (proj1 (first_pass_lists _ _)), (proj2 (first_pass_lists _ _)).
  intros m [[]|[]].
Qed.

(** Witness: Henry is available on a blank 2026 Saturday row. *)
Lemma analyze_available_names_witness :
  In "Henry" (map fst (row2026 "" "" "" "" "" "" "" "")) /\
  ~ In "Henry" ["Date"; "TBA"; "AAG"; "Stephanie"].
Proof.
  apply (analyze_available_names _ (Some 5%nat) (Some "2026") "Henry").
  left; vm_compute; tauto.
Defined.

(** The day's available spot count is never negative and never exceeds
    the number of DJs listed as available for booking. *)
Theorem analyze_spots_bounds (selected_data : list (string * string))
    (date_obj : option nat) (year : option string) :
  (0 <= s_available_spots (analyze_availability selected_data date_obj year)
      <= Z.of_nat (length (s_available_booking (analyze_availability selected_data date_obj year))))%Z.
Proof.
  unfold analyze_availability; cbv zeta; simpl.
  set (c := fold_left (second_pass_step date_obj year) selected_data
              (fold_left first_pass_step selected_data counts0)).
  set (k := Z.of_nat (length (available_for_booking c))).
  assert (Hk : (0 <= k)%Z) by lia.
  unfold max0.
  destruct (0 <? tba_bookings c)%Z eqn:E1; [apply Z.ltb_lt in E1|];
    destruct (aag_reserved c); destruct (_ && _); lia.
Qed.
End SummaryFacts.

(* ================================================================== *)
(** * Sheet reads, the insertion point and the calendar query *)
(* ================================================================== *)

Module SheetsFacts.
Import Py Manager Protocol Sheets.

Lemma find_from_spec (vs : list string) (t : string) (i : nat) :
  (forall r, find_from i vs t = Some r ->
     (i + 1 <= r <= i + length vs)%nat /\
     exists v, nth_error vs (r - 1 - i) = Some v /\ strip v = t /\
     forall j v', (j < r - 1 - i)%nat -> nth_error vs j = Some v' -> strip v' <> t) /\
  (find_from i vs t = None <-> forall v, In v vs -> strip v <> t).
Proof.
  revert i; induction vs as [|v vs IH]; intros i; simpl.
  - split; [discriminate|split; [intros _ v []|reflexivity]].
  - destruct (String.eqb_spec (strip v) t) as [E|E].
    + split.
      * intros r H; injection H as <-; split; [lia|].
        exists v; replace (i + 1 - 1 - i)%nat with 0%nat by lia.
        split; [reflexivity|split; [exact E|intros j v' Hj; lia]].
      * split; [discriminate|intros H; destruct (H v (or_introl eq_refl) E)].
    + destruct (IH (S i)) as [IHs IHn]; split.
      * intros r H; destruct (IHs r H) as [Hr [w (Hw & Hwt & Hpre)]]; split; [lia|].
        exists w; replace (r - 1 - i)%nat with (S (r - 1 - S i)) by lia.
        split; [exact Hw|split; [exact Hwt|]].
        intros [|j] v' Hj Hv'; simpl in Hv'; [injection Hv' as <-; exact E|].
        apply (Hpre j v'); [lia|exact Hv'].
      * rewrite IHn; split; [intros H w [<-|Hw]; [exact E|auto]|intros H w Hw; auto].
Qed.

(** [find_date_row] returns the 1-based position of the first column-A
    value that equals the target once stripped; it returns [None]
    exactly when no value does. *)
Theorem find_date_row_spec (date_values : list string) (target : string) :
  (forall r, find_date_row date_values target = Some r ->
     (1 <= r <= length date_values)%nat /\
     exists v, nth_error date_values (r - 1) = Some v /\ strip v = target /\
     forall j v', (j < r - 1)%nat -> nth_error date_values j = Some v' -> strip v' <> target) /\
  (find_date_row date_values target = None <-> forall v, In v date_values -> strip v <> target).
Proof.
  destruct (find_from_spec date_values target 0) as [Hs Hn]; split; [|exact Hn].
  intros r H; destruct (Hs r H) as [Hr [v Hv]]; split; [lia|].
  exists v; rewrite Nat.sub_0_r in Hv; exact Hv.
Qed.


Lemma set_key_fresh (k v : string) (d : list (string * string)) :
  ~ In k (map fst d) -> set_key k v d = app d [(k, v)].
Proof.
  induction d as [|[k' v'] d IH]; simpl; [reflexivity|intros H].
  destruct (String.eqb_spec k k') as [->|]; [destruct H; auto|].
  rewrite IH by tauto; reflexivity.
Qed.

Lemma fold_max_ge (l : list nat) (c : nat) :
  (c <= fold_left Nat.max l c)%nat /\ forall x, In x l -> (x <= fold_left Nat.max l c)%nat.
Proof.
  revert c; induction l as [|x l IH]; intros c; simpl; [split; [lia|intros _ []]|].
  destruct (IH (Nat.max c x)) as [H1 H2]; split; [lia|].
  intros y [<-|Hy]; [lia|auto].
Qed.

Lemma max_values_ge (cm : list (string * nat)) (mx : nat) (n : string) (c : nat) :
  max_values cm = Some mx -> In (n, c) cm -> (c <= mx)%nat.
Proof.
  destruct cm as [|[n0 c0] cm]; simpl; [discriminate|]; intros H; injection H as <-.
  destruct (fold_max_ge (map snd cm) c0) as [H1 H2].
  intros [E|Hin]; [injection E as -> ->; exact H1|].
  apply H2; change c with (snd (n, c)); apply in_map; exact Hin.
Qed.

Lemma pad_nth (mx : nat) (rv : list string) (i : nat) :
  (i < mx)%nat -> nth_error (pad mx rv) i = Some (nth i rv "").
Proof.
  intros Hi; unfold pad.
  destruct (Nat.lt_ge_cases i (length rv)) as [H|H].
  - rewrite nth_error_app1 by exact H; apply nth_error_nth'; exact H.
  - rewrite nth_error_app2 by exact H; rewrite nth_overflow by exact H.
    apply nth_error_repeat; lia.
Qed.

Lemma row_dict_app (a b : list (string * nat)) (rv : list string) :
  row_dict (app a b) rv = app (row_dict a rv) (row_dict b rv).
Proof. unfold row_dict; rewrite filter_app, map_app; reflexivity. Qed.

Lemma row_dict_keys (cm : list (string * nat)) (rv : list string) :
  map fst (row_dict cm rv) = filter (fun l => negb (String.eqb l "Date")) (map fst cm).
Proof.
  induction cm as [|[k c] cm IH]; [reflexivity|].
  unfold row_dict in *; simpl; destruct (negb _); simpl; rewrite IH; reflexivity.
Qed.

Lemma row_dict_get (cm : list (string * nat)) (rv : list string) (lbl : string) (col : nat) :
  col_lookup lbl cm = Some col -> lbl <> "Date" -> get lbl (row_dict cm rv) = nth (col - 1) rv "".
Proof.
  induction cm as [|[k c] cm IH]; simpl; [discriminate|]; intros Hl Hd.
  unfold row_dict in *; simpl.
  destruct (String.eqb_spec lbl k) as [->|Hne].
  - injection Hl as <-; rewrite (proj2 (String.eqb_neq k "Date") Hd); simpl.
    rewrite String.eqb_refl; reflexivity.
  - destruct (String.eqb k "Date"); simpl; [apply IH; auto|].
    rewrite (proj2 (String.eqb_neq lbl k) Hne); apply IH; auto.
Qed.

Lemma fold_row_dict (cm pre : list (string * nat)) (rv : list string) (mx : nat) :
  (forall n c, In (n, c) cm -> (1 <= c <= mx)%nat) ->
  NoDup (map fst (app pre cm)) ->
  fold_left (row_data_step (pad mx rv)) cm (Some (row_dict pre rv))
  = Some (row_dict (app pre cm) rv).
Proof.
  revert pre; induction cm as [|[n c] cm IH]; intros pre Hb Hnd;
    [rewrite app_nil_r; reflexivity|].
  cbn [fold_left].
  replace (app pre ((n, c) :: cm)) with (app (app pre [(n, c)]) cm) in Hnd |- *
    by (rewrite <- app_assoc; reflexivity).
  assert (Hstep : row_data_step (pad mx rv) (Some (row_dict pre rv)) (n, c)
                  = Some (row_dict (app pre [(n, c)]) rv)).
  { rewrite row_dict_app; unfold row_dict at 3; simpl.
    destruct (String.eqb n "Date") eqn:En; simpl; [rewrite app_nil_r; reflexivity|].
    destruct (Hb n c (or_introl eq_refl)) as [H1 H2].
    unfold py_index; cbv zeta.
    replace (0 <=? Z.of_nat c - 1)%Z with true by (symmetry; apply Z.leb_le; lia).
    replace (Z.to_nat (Z.of_nat c - 1)) with (c - 1)%nat by lia.
    rewrite pad_nth by lia.
    rewrite set_key_fresh; [reflexivity|].
    rewrite row_dict_keys; intros Hin; apply filter_In in Hin as [Hin _].
    rewrite <- app_assoc, map_app in Hnd; simpl in Hnd.
    apply NoDup_remove_2 in Hnd; apply Hnd, in_app_iff; left; exact Hin. }
  rewrite Hstep; apply IH; [intros n' c' H; apply (Hb n'); right; exact H|exact Hnd].
Qed.

Lemma get_row_data_of_dict (cm : list (string * nat)) (rv : list string) (mx : nat) :
  max_values cm = Some mx -> NoDup (map fst cm) ->
  (forall n c, In (n, c) cm -> (1 <= c)%nat) ->
  get_row_data_of cm rv = Some (row_dict cm rv).
Proof.
  intros Hmx Hnd Hc; unfold get_row_data_of; rewrite Hmx.
  exact (fold_row_dict cm [] rv mx
           (fun n c H => conj (Hc n c H) (max_values_ge cm mx n c Hmx H)) Hnd).
Qed.

Lemma column_map_or_2026_ok (year : Z) :
  exists mx, max_values (column_map_or_2026 year) = Some mx /\
  NoDup (map fst (column_map_or_2026 year)) /\
  forall n c, In (n, c) (column_map_or_2026 year) -> (1 <= c)%nat.
Proof.
  unfold column_map_or_2026, COLUMN_MAPS.
  destruct (year =? 2025)%Z; [|destruct (year =? 2026)%Z; [|destruct (year =? 2027)%Z]];
    cbn -[String.eqb];
    (eexists; split; [reflexivity|split;
      [repeat (apply NoDup_cons; [simpl; intuition discriminate|]); apply NoDup_nil
      |intros n c H; simpl in H;
       repeat match goal with H : _ \/ _ |- _ => destruct H as [H|H] end;
       try contradiction; injection H as _ <-; lia]]).
Qed.

(** [get_row_data] never raises: it returns a dictionary whose keys are
    the labels of the year's column map (of 2026 for an unconfigured
    year) other than Date, in column order, and each label holds the
    row's cell at its column, blank beyond the end of the row. *)
Theorem get_row_data_spec (row_values : list string) (year : Z) :
  exists data, get_row_data row_values year = Some data /\
  map fst data = filter (fun l => negb (String.eqb l "Date")) (map fst (column_map_or_2026 year)) /\
  forall lbl col, col_lookup lbl (column_map_or_2026 year) = Some col -> lbl <> "Date" ->
    get lbl data = nth (col - 1) row_values "".
Proof.
  destruct (column_map_or_2026_ok year) as (mx & Hmx & Hnd & Hc).
  exists (row_dict (column_map_or_2026 year) row_values); split;
    [exact (get_row_data_of_dict _ row_values mx Hmx Hnd Hc)|split].
  - apply row_dict_keys.
  - intros lbl col; apply row_dict_get.
Qed.

Lemma scan_insert_spec (i : nat) (vs : list string) (y : Z) (t : Z * Z * Z) :
  (forall s, In s vs -> parse_entry y s <> Raise) ->
  match scan_insert i vs y t with
  | None => False
  | Some None =>
      forall j s d, nth_error vs j = Some s -> parse_entry y s = Parsed d -> date_gtb d t = false
  | Some (Some r) =>
      (i + 1 <= r <= i + length vs)%nat /\
      (exists s d, nth_error vs (r - 1 - i) = Some s /\ parse_entry y s = Parsed d /\
                   date_gtb d t = true) /\
      forall j s d, (j < r - 1 - i)%nat -> nth_error vs j = Some s ->
                    parse_entry y s = Parsed d -> date_gtb d t = false
  end.
Proof.
  revert i; induction vs as [|v vs IH]; intros i Hr; simpl.
  - intros [|j] s d H; discriminate.
  - assert (Hr' : forall s, In s vs -> parse_entry y s <> Raise) by (intros s Hs; apply Hr; right; exact Hs).
    specialize (IH (S i) Hr').
    destruct (parse_entry y v) as [|d|] eqn:Ev;
      [| |destruct (Hr v (or_introl eq_refl) Ev)];
      [|destruct (date_gtb d t) eqn:Eg].
    + destruct (scan_insert (S i) vs y t) as [[r|]|]; [|intros [|j] s d' Hs Hp; simpl in Hs;
        [injection Hs as <-; congruence|eauto]|contradiction].
      destruct IH as (Hb & (s & d & Hs & Hp & Hg) & Hpre); split; [lia|split].
      * exists s, d; replace (r - 1 - i)%nat with (S (r - 1 - S i)) by lia; auto.
      * intros [|j] s' d' Hj Hs' Hp'; simpl in Hs'; [injection Hs' as <-; congruence|].
        apply (Hpre j s' d'); [lia|exact Hs'|exact Hp'].
    + split; [lia|split].
      * exists v, d; replace (i + 1 - 1 - i)%nat with 0%nat by lia; auto.
      * intros j s d' Hj; lia.
    + destruct (scan_insert (S i) vs y t) as [[r|]|]; [|intros [|j] s d' Hs Hp; simpl in Hs;
        [injection Hs as <-; congruence|eauto]|contradiction].
      destruct IH as (Hb & (s & d' & Hs & Hp & Hg) & Hpre); split; [lia|split].
      * exists s, d'; replace (r - 1 - i)%nat with (S (r - 1 - S i)) by lia; auto.
      * intros [|j] s' d'' Hj Hs' Hp'; simpl in Hs'; [injection Hs' as <-; congruence|].
        apply (Hpre j s' d''); [lia|exact Hs'|exact Hp'].
Qed.

(** When no column-A value makes [datetime] overflow, [create_date_row]
    inserts at a row between 1 and one past the last value: the first
    value whose date is later than the new date, every earlier value
    parsing to a date not later than it; the row after the last value
    when no value is later. *)
Theorem insertion_row_spec (date_values : list string) (year : Z) (date_obj : Z * Z * Z) :
  (forall s, In s date_values -> parse_entry year s <> Raise) ->
  exists r, insertion_row date_values year date_obj = Some r /\
  (1 <= r <= length date_values + 1)%nat /\
  (forall j s d, (j < r - 1)%nat -> nth_error date_values j = Some s ->
                 parse_entry year s = Parsed d -> date_gtb d date_obj = false) /\
  ((r <= length date_values)%nat ->
   exists s d, nth_error date_values (r - 1) = Some s /\ parse_entry year s = Parsed d /\
               date_gtb d date_obj = true).
Proof.
  intros Hr; pose proof (scan_insert_spec 0 date_values year date_obj Hr) as H.
  unfold insertion_row.
  destruct (scan_insert 0 date_values year date_obj) as [[r|]|]; [| |contradiction].
  - destruct H as (Hb & Hlast & Hpre); exists r; split; [reflexivity|split; [lia|split]].
    + intros j s d Hj; apply Hpre; lia.
    + intros _; rewrite Nat.sub_0_r in Hlast; exact Hlast.
  - exists (length date_values + 1)%nat; split; [reflexivity|split; [lia|split]].
    + intros j s d _; apply H.
    + intros Hl; lia.
Qed.

(** Witness: between Friday 11/20 and Sunday 11/22 of 2026, a new
    11/21 row goes in row 3; the header ["Date"] is skipped. *)
Lemma insertion_row_spec_witness :
  exists r, insertion_row ["Date"; "Fri 11/20"; "Sun 11/22"] 2026 (2026, 11, 21)%Z = Some r.
Proof.
  destruct (insertion_row_spec ["Date"; "Fri 11/20"; "Sun 11/22"] 2026 (2026, 11, 21)%Z)
    as (r & Hr & _).
  - intros s Hs; simpl in Hs;
      repeat match goal with H : _ \/ _ |- _ => destruct H as [H|H] end;
      try contradiction; subst s; vm_compute; discriminate.
  - exists r; exact Hr.
Defined.

(** A column-A value reached by the loop whose month or day is beyond
    the C [int] range makes [create_date_row] raise: [datetime] throws
    [OverflowError], which the loop does not catch, so no row is
    inserted. *)
Theorem insertion_row_overflow (date_values : list string) (year : Z) (date_obj : Z * Z * Z)
    (k : nat) (s : string) :
  (forall j s', (j < k)%nat -> nth_error date_values j = Some s' ->
     parse_entry year s' = Skip \/
     exists d, parse_entry year s' = Parsed d /\ date_gtb d date_obj = false) ->
  nth_error date_values k = Some s -> parse_entry year s = Raise ->
  insertion_row date_values year date_obj = None.
Proof.
  intros Hpre Hk Hs; unfold insertion_row.
  enough (E : scan_insert 0 date_values year date_obj = None) by (rewrite E; reflexivity).
  generalize 0%nat as i.
  revert k Hpre Hk; induction date_values as [|v vs IH]; intros k Hpre Hk i;
    [destruct k; discriminate|].
  destruct k as [|k]; simpl in Hk.
  - injection Hk as ->; simpl; rewrite Hs; reflexivity.
  - assert (Hpre' : forall j s', (j < k)%nat -> nth_error vs j = Some s' ->
              parse_entry year s' = Skip \/
              exists d, parse_entry year s' = Parsed d /\ date_gtb d date_obj = false)
      by (intros j s' Hj Hs'; apply (Hpre (S j)); [lia|exact Hs']).
    simpl; destruct (Hpre 0%nat v ltac:(lia) eq_refl) as [E|(d & E & Eg)]; rewrite E.
    + exact (IH k Hpre' Hk (S i)).
    + rewrite Eg; exact (IH k Hpre' Hk (S i)).
Qed.

(** Witness: a value ["Sat 3000000000/1"] in the first row. *)
Lemma insertion_row_overflow_witness :
  insertion_row ["Sat 3000000000/1"; "Sun 11/22"] 2026 (2026, 11, 21)%Z = None.
Proof.
  apply (insertion_row_overflow _ _ _ 0 "Sat 3000000000/1");
    [intros j s' Hj; lia|reflexivity|vm_compute; reflexivity].
Defined.

Lemma rstrip_idem (s : string) : rstrip (rstrip s) = rstrip s.
Proof.
  induction s as [|c r IH]; [reflexivity|].
  simpl; destruct (String.eqb (rstrip r) "" && is_space c) eqn:E; [reflexivity|].
  simpl; rewrite IH, E; reflexivity.
Qed.

Lemma lstrip_non_space (s : string) :
  lstrip s = "" \/ exists c r, lstrip s = String c r /\ is_space c = false.
Proof.
  induction s as [|c r IH]; simpl; [left; reflexivity|].
  destruct (is_space c) eqn:E; [exact IH|right; exists c, r; auto].
Qed.

Lemma strip_idem (s : string) : strip (strip s) = strip s.
Proof.
  unfold strip.
  destruct (lstrip_non_space s) as [->|(c & r & -> & Hc)]; [reflexivity|].
  cbn [rstrip]; rewrite Hc, andb_false_r.
  cbn [lstrip]; rewrite Hc.
  cbn [rstrip]; rewrite rstrip_idem, Hc, andb_false_r; reflexivity.
Qed.

(** [check_calendar_conflicts] lists exactly the lines of the query's
    output that, stripped, are non-empty and contain the initials
    bracket, stripped; nothing when icalBuddy is missing or times out. *)
Theorem check_calendar_conflicts_spec (stdout : option string) (initials_bracket line : string) :
  (In line (check_calendar_conflicts stdout initials_bracket) <->
   exists out raw, stdout = Some out /\ In raw (split "010" (strip out)) /\
     line = strip raw /\ line <> "" /\ contains initials_bracket line = true) /\
  (In line (check_calendar_conflicts stdout initials_bracket) -> strip line = line).
Proof.
  assert (Hiff : In line (check_calendar_conflicts stdout initials_bracket) <->
   exists out raw, stdout = Some out /\ In raw (split "010" (strip out)) /\
     line = strip raw /\ line <> "" /\ contains initials_bracket line = true).
  { destruct stdout as [out|]; simpl.
    - rewrite filter_In, in_map_iff; split.
      + intros [(raw & <- & Hraw) Hc]; apply andb_true_iff in Hc as [Hne Hc].
        exists out, raw; repeat split; auto.
        apply negb_true_iff, String.eqb_neq in Hne; exact Hne.
      + intros (o & raw & Eo & Hraw & -> & Hne & Hc); injection Eo as <-.
        split; [exists raw; auto|].
        apply andb_true_iff; split; [apply negb_true_iff, String.eqb_neq; exact Hne|exact Hc].
    - split; [intros []|intros (o & _ & Eo & _); discriminate]. }
  split; [exact Hiff|].
  intros H; apply Hiff in H as (o & raw & _ & _ & -> & _); apply strip_idem.
Qed.
End SheetsFacts.

(** ** booking_comparator.py: the report of compare_systems *)

Module ComparatorMore.
Import Py Comparator.

Lemma categorize_subset (hc : bool) (iss : list issue) (bk : buckets) (i : issue) :
  In i (missing_from_matrix (fold_left (categorize_step hc) iss bk)) \/
  In i (missing_from_gig_db (fold_left (categorize_step hc) iss bk)) \/
  In i (missing_from_calendar (fold_left (categorize_step hc) iss bk)) \/
  In i (dj_mismatches (fold_left (categorize_step hc) iss bk)) ->
  In i iss \/ In i (missing_from_matrix bk) \/ In i (missing_from_gig_db bk) \/
  In i (missing_from_calendar bk) \/ In i (dj_mismatches bk).
Proof.
  revert bk; induction iss as [|x iss IH]; intros bk H; [right; exact H|].
  cbn [fold_left] in H; apply IH in H.
  destruct H as [H|H]; [left; right; exact H|].
  unfold categorize_step in H; cbv zeta in H.
  repeat match type of H with context [if ?b then _ else _] => destruct b end;
    simpl in H; rewrite ?in_app_iff in H; simpl in H;
    repeat match goal with H : _ \/ _ |- _ => destruct H as [H|H] end;
    try contradiction; subst; simpl; tauto.
Qed.

(** Every dated line of the [compare_systems] report names a date of
    one of the sources on which the present sources' DJ sets differ. *)
Theorem compare_systems_reports_disagreements (gig_db avail_matrix : source)
    (master_cal : option source) (cat : category) (d : string) :
  In (cat, d) (compare_systems gig_db avail_matrix master_cal) ->
  In d (all_dates gig_db avail_matrix master_cal) /\
  match master_cal with
  | Some cal => set_eqb (djs_on d gig_db) (djs_on d avail_matrix)
                && set_eqb (djs_on d avail_matrix) (djs_on d cal)
  | None => set_eqb (djs_on d gig_db) (djs_on d avail_matrix)
  end = false.
Proof.
  intros H.
  assert (Hi : exists i, In i (issues gig_db avail_matrix master_cal) /\ i_date i = d).
  { unfold compare_systems in H; cbv zeta in H.
    set (iss := issues gig_db avail_matrix master_cal) in H.
    set (hc := match master_cal with Some _ => true | None => false end) in H.
    set (bk := fold_left (categorize_step hc) iss (mk_buckets [] [] [] [])) in H.
    assert (Hb : forall i, In i (missing_from_matrix bk) \/ In i (missing_from_gig_db bk) \/
                           In i (missing_from_calendar bk) \/ In i (dj_mismatches bk) -> In i iss).
    { intros i Hin; apply categorize_subset in Hin; simpl in Hin; tauto. }
    rewrite !in_app_iff in H.
    destruct H as [H|[H|[H|H]]].
    - apply in_map_iff in H as (i & E & Hin); injection E as _ <-; exists i; split; [apply Hb; tauto|reflexivity].
    - apply in_map_iff in H as (i & E & Hin); injection E as _ <-; exists i; split; [apply Hb; tauto|reflexivity].
    - destruct hc; [|destruct H].
      apply in_map_iff in H as (i & E & Hin); injection E as _ <-.
      apply filter_In in Hin as [Hin _]; exists i; split; [apply Hb; tauto|reflexivity].
    - apply in_map_iff in H as (i & E & Hin); injection E as _ <-; exists i; split; [apply Hb; tauto|reflexivity]. }
  destruct Hi as (i & Hin & <-).
  unfold issues in Hin; apply in_flat_map in Hin as (k & Hk & Hin).
  destruct master_cal as [cal|]; simpl in Hin;
    match type of Hin with In _ (if ?b then _ else _) => destruct b eqn:E end;
    [destruct Hin|destruct Hin as [<-|[]]; simpl; auto| destruct Hin|destruct Hin as [<-|[]]; simpl; auto].
Qed.

Lemma set_eqb_refl (a : list string) : set_eqb a a = true.
Proof.
  unfold set_eqb; rewrite andb_diag; apply forallb_forall; intros x Hx.
  apply existsb_exists; exists x; split; [exact Hx|apply String.eqb_refl].
Qed.

(** A source compared with itself, with or without the calendar, gives
    an empty report. *)
Theorem compare_systems_same_source (s : source) :
  compare_systems s s (Some s) = [] /\ compare_systems s s None = [].
Proof.
  assert (H : forall c, In c (compare_systems s s (Some s)) \/ In c (compare_systems s s None) -> False).
  { intros [cat d] [H|H]; apply compare_systems_reports_disagreements in H as [_ H];
      rewrite set_eqb_refl in H; discriminate. }
  split; [destruct (compare_systems s s (Some s)) as [|c l]|destruct (compare_systems s s None) as [|c l]];
    auto; destruct (H c); simpl; auto.
Qed.

Lemma key_leb_total (a b : Z * Z) : key_leb a b = false -> key_leb b a = true.
Proof.
  unfold key_leb; destruct a as [a1 a2], b as [b1 b2]; simpl; intros H.
  apply orb_false_iff in H as [H1 H2]; apply Z.ltb_ge in H1.
  apply orb_true_iff; destruct (Z.eq_dec a1 b1) as [->|Hne].
  - right; rewrite Z.eqb_refl in *; simpl in *; apply Z.leb_gt in H2; apply Z.leb_le; lia.
  - left; apply Z.ltb_lt; lia.
Qed.

Lemma insert_sorted_in (x d : string) (l : list string) :
  In d (insert_sorted x l) <-> x = d \/ In d l.
Proof.
  induction l as [|y l IH]; simpl; [tauto|].
  destruct (key_leb _ _); simpl; [tauto|rewrite IH; tauto].
Qed.

Lemma insert_sorted_nodup (x : string) (l : list string) :
  ~ In x l -> NoDup l -> NoDup (insert_sorted x l).
Proof.
  induction l as [|y l IH]; simpl; intros Hx Hnd; [constructor; [intros []|constructor]|].
  inversion Hnd as [|? ? Hy Hl]; subst.
  destruct (key_leb _ _); [constructor; [exact Hx|exact Hnd]|].
  constructor; [rewrite insert_sorted_in; intros [->|H]; tauto|apply IH; tauto].
Qed.

Lemma insert_sorted_hd (x y : string) (l : list string) :
  HdRel key_le y l -> key_le y x -> HdRel key_le y (insert_sorted x l).
Proof.
  destruct l as [|z l]; simpl; intros Hd Hyx; [constructor; exact Hyx|].
  destruct (key_leb _ _); constructor; [exact Hyx|inversion Hd; assumption].
Qed.

Lemma insert_sorted_sorted (x : string) (l : list string) :
  Sorted key_le l -> Sorted key_le (insert_sorted x l).
Proof.
  induction l as [|y l IH]; simpl; intros Hs; [constructor; constructor|].
  inversion Hs as [|? ? Hl Hd]; subst.
  destruct (key_leb (date_sort_key x) (date_sort_key y)) eqn:E.
  - constructor; [exact Hs|constructor; exact E].
  - constructor; [apply IH; exact Hl|].
    apply insert_sorted_hd; [exact Hd|apply key_leb_total; exact E].
Qed.

Lemma uniq_spec (keys acc : list string) :
  NoDup acc ->
  NoDup (fold_left (fun acc k => if mem k acc then acc else app acc [k]) keys acc) /\
  forall d, In d (fold_left (fun acc k => if mem k acc then acc else app acc [k]) keys acc)
            <-> In d acc \/ In d keys.
Proof.
  revert acc; induction keys as [|k keys IH]; intros acc Hnd; simpl; [split; [exact Hnd|tauto]|].
  destruct (mem k acc) eqn:E.
  - destruct (IH acc Hnd) as [H1 H2]; split; [exact H1|intros d; rewrite H2].
    unfold mem in E; apply existsb_exists in E as (y & Hy & Ey); apply String.eqb_eq in Ey; subst y.
    split; [tauto|intros [H|[<-|H]]; tauto].
  - assert (Hnd' : NoDup (app acc [k])).
    { apply NoDup_app; [exact Hnd|constructor; [intros []|constructor]|].
      intros x Hx [Ex|[]]; subst x.
      assert (E' : mem k acc = true)
        by (apply existsb_exists; exists k; split; [exact Hx|apply String.eqb_refl]).
      congruence. }
    destruct (IH _ Hnd') as [H1 H2]; split; [exact H1|intros d; rewrite H2, in_app_iff].
    simpl; tauto.
Qed.

(** When every date key of the sources has a month and a day that
    [int] reads (otherwise the code's [date_sort_key] raises), [all_dates]
    lists every date key of the three sources exactly once, sorted by
    [date_sort_key]. *)
Theorem all_dates_spec (gig_db avail_matrix : source) (master_cal : option source) :
  (forall k, In k (map fst gig_db ++ map fst avail_matrix
                   ++ match master_cal with Some c => map fst c | None => [] end)%list ->
     exists m dd rest x y, split "/" k = m :: dd :: rest /\ int m = Some x /\ int dd = Some y) ->
  NoDup (all_dates gig_db avail_matrix master_cal) /\
  Sorted (fun a b => key_leb (date_sort_key a) (date_sort_key b) = true)
         (all_dates gig_db avail_matrix master_cal) /\
  forall d, In d (all_dates gig_db avail_matrix master_cal) <->
            In d (map fst gig_db ++ map fst avail_matrix
                  ++ match master_cal with Some c => map fst c | None => [] end)%list.
Proof.
  intros _; unfold all_dates; cbv zeta.
  destruct (uniq_spec (map fst gig_db ++ map fst avail_matrix
                  ++ match master_cal with Some c => map fst c | None => [] end)%list []
              (NoDup_nil _)) as [Hnd Hin].
  revert Hnd Hin.
  generalize (fold_left (fun acc k => if mem k acc then acc else app acc [k])
                (map fst gig_db ++ map fst avail_matrix
                 ++ match master_cal with Some c => map fst c | None => [] end)%list []) as u.
  intros u Hnd Hin.
  assert (H : NoDup (fold_right insert_sorted [] u) /\ Sorted key_le (fold_right insert_sorted [] u)
              /\ forall d, In d (fold_right insert_sorted [] u) <-> In d u).
  { clear Hin; induction u as [|x u IH]; simpl.
    - split; [constructor|split; [constructor|tauto]].
    - inversion Hnd as [|? ? Hx Hu]; subst.
      destruct (IH Hu) as (H1 & H2 & H3); split; [|split].
      + apply insert_sorted_nodup; [rewrite H3; exact Hx|exact H1].
      + apply insert_sorted_sorted; exact H2.
      + intros d; rewrite insert_sorted_in, H3; simpl; tauto. }
  destruct H as (H1 & H2 & H3); split; [exact H1|split; [exact H2|]].
  intros d; rewrite H3, Hin; split; [intros [[]|H]; exact H|intros H; right; exact H].
Qed.

(** [date_sort_key] reads a key ["M/D"] written with [str] back as the
    numbers [(M, D)]. *)
Theorem date_sort_key_str (m d : Z) :
  (0 <= m)%Z -> (0 <= d)%Z -> date_sort_key (str m ++ "/" ++ str d) = (m, d).
Proof.
  intros Hm Hd.
  destruct (DigitFacts.str_digits m Hm) as (Hne & Hdm & Him).
  destruct (DigitFacts.str_digits d Hd) as (Hne' & Hdd & Hid).
  unfold date_sort_key.
  assert (E1 : split "/" ("/" ++ str d) = "" :: [str d]).
  { cbn [append split]; rewrite (CellFacts.split_no_sep "/" (str d)); [reflexivity|].
    exact (BookedCellFacts.no_sep_digits (str d) Hdd "/" eq_refl). }
  rewrite (CellFacts.split_app "/" (str m) ("/" ++ str d) "" [str d]
             (BookedCellFacts.no_sep_digits (str m) Hdm "/" eq_refl) E1).
  rewrite DigitFacts.append_nil_r, Him, Hid; reflexivity.
Qed.

(** Witness: the key ["10/3"]. *)
Lemma date_sort_key_str_witness : date_sort_key (str 10 ++ "/" ++ str 3) = (10, 3)%Z.
Proof. apply date_sort_key_str; lia. Defined.

(** Witness: two sources with the keys 11/21 and 9/5. *)
Lemma all_dates_spec_witness :
  all_dates [("11/21", ["Paul"])] [("9/5", ["Henry"])] None = ["9/5"; "11/21"] /\
  NoDup (all_dates [("11/21", ["Paul"])] [("9/5", ["Henry"])] None).
Proof.
  assert (Hk : forall k, In k (map fst [("11/21", ["Paul"])] ++ map fst [("9/5", ["Henry"])]
                   ++ match (None : option source) with Some c => map fst c | None => [] end)%list ->
     exists m dd rest x y, split "/" k = m :: dd :: rest /\ int m = Some x /\ int dd = Some y).
  { intros k Hk; simpl in Hk; destruct Hk as [<-|[<-|[]]];
      do 5 eexists; (split; [reflexivity|split; vm_compute; reflexivity]). }
  split; [vm_compute; reflexivity|].
  exact (proj1 (all_dates_spec [("11/21", ["Paul"])] [("9/5", ["Henry"])] None Hk)).
Defined.

(** Witness: a date booked only in the gig database. *)
Lemma compare_systems_reports_disagreements_witness :
  In "3/14" (all_dates [("3/14", ["Paul"])] [] None) /\
  set_eqb (djs_on "3/14" [("3/14", ["Paul"])]) (djs_on "3/14" []) = false.
Proof.
  exact (compare_systems_reports_disagreements [("3/14", ["Paul"])] [] None
           MissingFromMatrix "3/14" (or_introl eq_refl)).
Defined.

End ComparatorMore.
